(** * DBSCAN: a shallow embedding of [dbscan/dbscan.py]

    The Python module holds the class [DBSCAN] (constructor, [fit],
    [_get_core_sample_indices]) and the two helpers
    [get_distances_from_other_points] and [square_to_condensed].

    Python integers are [Z]; Python floats and numpy's float64 entries are
    Rocq's primitive binary64 floats; arrays are lists; a raised exception is
    the [Raise] branch of [result]; the attribute value [None] is [None].

    Line 99 of the source divides with [/], so [square_to_condensed] computes
    in binary64.  The file carries the function twice:
    [square_to_condensed_binary64] evaluates line 99 as Python does, with the
    conversions of integers to floats, their rounding and their
    [OverflowError]; [square_to_condensed] gives the same number computed
    exactly, and is the one the list functions use.  The two agree wherever
    every intermediate value is below 2^53 (lemma
    [square_to_condensed_binary64_exact]), which covers every table that fits
    in memory (up to 94906265 points).

    Of numpy the embedding keeps the values (an index sequence is the list of
    its integers, a 2-d array the list of its rows) and one fact about dtypes:
    [np.array] of an empty list is a float64 array, which [take] refuses as an
    index array. *)

From Stdlib Require Import ZArith List Lia Bool Floats Sorted.
Import ListNotations.
Open Scope Z_scope.

(** ** Exceptions *)

(** The exceptions the module can raise: the [assert] of
    [square_to_condensed], the out-of-bounds error of [ndarray.take], the
    refusal by [take] of a float64 index array, and the overflow of a
    conversion of an integer to a float. *)
Inductive exn : Type :=
| AssertionError
| IndexError
| TypeError
| OverflowError.

Inductive result (A : Type) : Type :=
| Ok (a : A)
| Raise (e : exn).
Arguments Ok {A} a.
Arguments Raise {A} e.

Definition bind {A B : Type} (m : result A) (k : A -> result B) : result B :=
  match m with
  | Ok a => k a
  | Raise e => Raise e
  end.

Notation "x <- m ;; k" := (bind m (fun x => k))
  (at level 61, m at next level, right associativity).

(** A list comprehension whose body may raise: the first exception stops it. *)
Fixpoint mapM {A B : Type} (f : A -> result B) (l : list A) : result (list B) :=
  match l with
  | [] => Ok []
  | x :: xs => y <- f x ;; ys <- mapM f xs ;; Ok (y :: ys)
  end.

(** ** Builtins and itertools *)

Definition len {A : Type} (l : list A) : Z := Z.of_nat (length l).

(** [range(a, b)]: the integers [a], [a+1], ..., [b-1]; empty when [b <= a]. *)
Definition range (a b : Z) : list Z :=
  map (fun k => a + Z.of_nat k) (seq 0 (Z.to_nat (b - a))).

(** [itertools.repeat(x, n)], for [n] in the range of a C [ssize_t]: a
    negative [n] gives the empty sequence. *)
Definition repeat_n {A : Type} (x : A) (n : Z) : list A := repeat x (Z.to_nat n).

(** [zip] stops at the shorter argument, as [combine] does;
    [itertools.chain] of two iterables is [++]. *)
Definition zip {A B : Type} (l : list A) (l' : list B) : list (A * B) := combine l l'.
Definition chain {A : Type} (l l' : list A) : list A := l ++ l'.

(** ** Integers and floats *)

(** The binary64 number nearest to an integer (ties to even), as a
    specification float and as a float. *)
Definition Z2SF (z : Z) : spec_float := binary_normalize prec emax z 0 false.
Definition float_of_Z (z : Z) : float := SF2Prim (Z2SF z).

(** The conversion of a Python int that meets a float in an arithmetic
    operation: the nearest float, or [OverflowError] when that is infinite. *)
Definition float_of_int (z : Z) : result float :=
  match Z2SF z with
  | S754_infinity _ => Raise OverflowError
  | x => Ok (SF2Prim x)
  end.

(** [a / 2] for a Python int [a]: the quotient, rounded once to the nearest
    float, or [OverflowError] when that is infinite. *)
Definition true_divide_2 (a : Z) : result float :=
  match binary_normalize prec emax a (-1) false with
  | S754_infinity _ => Raise OverflowError
  | x => Ok (SF2Prim x)
  end.

(** ** numpy and scipy *)

Module np.

(** One index of [a.take(indices)] in the default mode ['raise']:
    [k] is valid when [-len a <= k < len a], a negative [k] counts from
    the end. *)
Definition take1 {A : Type} (a : list A) (k : Z) : result A :=
  if (k <? - len a) || (len a <=? k) then Raise IndexError
  else
    match nth_error a (Z.to_nat (if k <? 0 then k + len a else k)) with
    | Some x => Ok x
    | None => Raise IndexError
    end.

(** [a.take(indices)] on a 1-d array, and [a.take(indices, axis=0)] on a
    2-d array seen as the list of its rows. *)
Definition take {A : Type} (a : list A) (indices : list Z) : result (list A) :=
  mapM (take1 a) indices.

(** [a < x] with a scalar [x]: the elementwise comparison. *)
Definition less (a : list float) (x : float) : list bool :=
  map (fun d => PrimFloat.ltb d x) a.

(** [np.where(cond, x, y)] with scalars [x] and [y]. *)
Definition where_ {A : Type} (cond : list bool) (x y : A) : list A :=
  map (fun c : bool => if c then x else y) cond.

Definition count_nonzero (a : list Z) : Z :=
  len (filter (fun x => negb (x =? 0)) a).

(** The dtype of [np.array(l)] for a list [l] of point indices: int64, but
    float64 when the list is empty. *)
Inductive dtype : Type :=
| int64
| float64.

Definition array_dtype (l : list Z) : dtype :=
  match l with
  | [] => float64
  | _ :: _ => int64
  end.

(** [a.take(np.array(l), axis=0)]: an index array of dtype float64 cannot be
    cast to integers under the rule ['safe'], and [take] raises [TypeError]. *)
Definition take_array {A : Type} (a : list A) (l : list Z) : result (list A) :=
  match array_dtype l with
  | float64 => Raise TypeError
  | int64 => take a l
  end.

End np.

Module scipy.

(** The Euclidean metric of [pdist]: the square root of the sum, taken
    left to right from [0.0], of the squared coordinate differences. *)
Definition euclidean (u v : list float) : float :=
  PrimFloat.sqrt
    (fold_left (fun s p => (s + (fst p - snd p) * (fst p - snd p))%float)
               (combine u v) 0%float).

(** [pdist(X)]: the condensed distance matrix, the distances of the pairs
    (0,1), (0,2), ..., (0,m-1), (1,2), ..., (m-2,m-1) in this order. *)
Fixpoint pdist (X : list (list float)) : list float :=
  match X with
  | [] => []
  | u :: rest => map (euclidean u) rest ++ pdist rest
  end.

End scipy.

(** ** The module [dbscan.dbscan] *)

(** [square_to_condensed(i, j, n)] as Python evaluates it.  On line 99,
    [n * j] and [j * (j + 1)] are integers; [/ 2] makes a float; from there
    each operation converts its integer operand to a float and rounds its
    result. *)
Definition square_to_condensed_binary64 (i j n : Z) : result float :=
  if i =? j then Raise AssertionError
  else
    let '(i, j) := if i <? j then (j, i) else (i, j) in
    half <- true_divide_2 (j * (j + 1)) ;;
    nj <- float_of_int (n * j) ;;
    fi <- float_of_int i ;;
    fj <- float_of_int j ;;
    Ok (nj - half + fi - 1 - fj)%float.

(** [square_to_condensed(i, j, n)] with the number of line 99 computed
    exactly.  [j * (j + 1)] is even (lemma [triangular_exact]), so the exact
    quotient is the integer [j * (j + 1) / 2]; the float the source returns is
    this integer as long as no operation rounds (lemma
    [square_to_condensed_binary64_exact]). *)
Definition square_to_condensed (i j n : Z) : result Z :=
  if i =? j then Raise AssertionError
  else
    let '(i, j) := if i <? j then (j, i) else (i, j) in
    Ok (n * j - j * (j + 1) / 2 + i - 1 - j).

(** [get_distances_from_other_points(i, n, distance_matrix)].  The list
    [condensed_indices] holds the numbers of [square_to_condensed]; [take]
    reads them as the integers they are. *)
Definition get_distances_from_other_points
    (i n : Z) (distance_matrix : list float) : result (list float) :=
  let square_indices := zip (repeat_n i n) (chain (range 0 i) (range (i + 1) n)) in
  condensed_indices <-
    mapM (fun square_index => square_to_condensed (fst square_index) (snd square_index) n)
         square_indices ;;
  np.take distance_matrix condensed_indices.

(** An instance of the class: the two private parameters and the three
    public attributes, each [None] until [fit] sets it. *)
Record DBSCAN : Type := mkDBSCAN {
  _eps : float;
  _min_samples : Z;
  core_sample_indices_ : option (list Z);
  components_ : option (list (list float));
  labels_ : option (list Z)
}.

(** [DBSCAN.__init__]: stores the parameters as given. *)
Definition __init__ (eps : float) (min_samples : Z) : result DBSCAN :=
  Ok {| _eps := eps;
        _min_samples := min_samples;
        core_sample_indices_ := None;
        components_ := None;
        labels_ := None |}.

(** Lines 61-63, the body of the loop up to the test: the mask
    [less_than_eps] of point [i] and the count [num_less_than_eps]. *)
Definition less_than_eps (self : DBSCAN) (i n : Z) (distance_matrix : list float)
    : result (list Z) :=
  distances <- get_distances_from_other_points i n distance_matrix ;;
  Ok (np.where_ (np.less distances (_eps self)) 1 0).

Definition num_less_than_eps (self : DBSCAN) (i n : Z) (distance_matrix : list float)
    : result Z :=
  mask <- less_than_eps self i n distance_matrix ;;
  Ok (np.count_nonzero mask + 1).

(** The [for] loop of [_get_core_sample_indices] over the remaining indices,
    [core_sample_indices] being the list built so far. *)
Fixpoint core_loop (self : DBSCAN) (n : Z) (distance_matrix : list float)
    (indices : list Z) (core_sample_indices : list Z) : result (list Z) :=
  match indices with
  | [] => Ok core_sample_indices
  | i :: rest =>
      num <- num_less_than_eps self i n distance_matrix ;;
      if num >=? _min_samples self
      then core_loop self n distance_matrix rest (core_sample_indices ++ [i])
      else core_loop self n distance_matrix rest core_sample_indices
  end.

Definition _get_core_sample_indices (self : DBSCAN) (n : Z) (distance_matrix : list float)
    : result (list Z) :=
  core_loop self n distance_matrix (range 0 n) [].

(** The two assignments of [fit]. *)
Definition set_core_sample_indices (self : DBSCAN) (core : list Z) : DBSCAN :=
  {| _eps := _eps self;
     _min_samples := _min_samples self;
     core_sample_indices_ := Some core;
     components_ := components_ self;
     labels_ := labels_ self |}.

Definition set_components (self : DBSCAN) (components : list (list float)) : DBSCAN :=
  {| _eps := _eps self;
     _min_samples := _min_samples self;
     core_sample_indices_ := core_sample_indices_ self;
     components_ := Some components;
     labels_ := labels_ self |}.

(** The body of [DBSCAN.fit] on the mutable instance: the state of the
    instance when the call ends, and the exception that ended it, if any.
    Line 45 assigns [core_sample_indices_] before line 46 calls [take]. *)
Definition fit_on (self : DBSCAN) (data : list (list float)) : DBSCAN * option exn :=
  let distance_matrix := scipy.pdist data in
  let n := len data in
  match _get_core_sample_indices self n distance_matrix with
  | Raise e => (self, Some e)
  | Ok core =>
      let self := set_core_sample_indices self core in
      match np.take_array data core with
      | Raise e => (self, Some e)
      | Ok components => (set_components self components, None)
      end
  end.

(** [DBSCAN.fit]: returns the instance, with [core_sample_indices_] and
    [components_] set; no other attribute is assigned. *)
Definition fit (self : DBSCAN) (data : list (list float)) : result DBSCAN :=
  match fit_on self data with
  | (self, None) => Ok self
  | (_, Some e) => Raise e
  end.

(** The fixture of the test suite and the call of [test_fit]. *)
Definition get_two_clusters : list (list float) :=
  [[1; 3]; [2; 2]; [3; 1]; [6; 8]; [7; 7]; [8; 6]; [1; 8]]%float.

(** Three points, the second at distance exactly 5 from the first. *)
Definition three_points : list (list float) := [[0; 0]; [3; 4]; [0; 1]]%float.

Definition run (eps : float) (min_samples : Z) (data : list (list float)) : result DBSCAN :=
  dbscan <- __init__ eps min_samples ;; fit dbscan data.

(** ** Notions the statements use *)

(** The condensed offset of the pair [j < i] among [n] points, and the size
    of the condensed table of [n] points. *)
Definition offset (n i j : Z) : Z := n * j - j * (j + 1) / 2 + i - 1 - j.
Definition condensed_size (n : Z) : Z := n * (n - 1) / 2.

(** The cell of a condensed table that holds the distance of the unordered
    pair [{i, j}]. *)
Definition cell (distance_matrix : list float) (n i j : Z) : float :=
  nth (Z.to_nat (offset n (Z.max i j) (Z.min i j))) distance_matrix nan.

(** Row [k] of a 2-d array. *)
Definition row (data : list (list float)) (k : Z) : list float :=
  nth (Z.to_nat k) data [].

(** The distance of points [i] and [j] of [data]: the metric is computed once
    per unordered pair, on the row of the smaller index first. *)
Definition distance (data : list (list float)) (i j : Z) : float :=
  scipy.euclidean (row data (Z.min i j)) (row data (Z.max i j)).

(** The points other than [i], ascending. *)
Definition others (i n : Z) : list Z := range 0 i ++ range (i + 1) n.

(** The number of points [j <> i] with [distance(i, j) < eps]. *)
Definition neighbor_count (data : list (list float)) (eps : float) (i : Z) : Z :=
  len (filter (fun j => negb (j =? i) && PrimFloat.ltb (distance data i j) eps)
              (range 0 (len data))).

(** Shifting a positive number left, and the canonical binary64 form of an
    integer of magnitude below 2^53: a mantissa of 53 bits and the matching
    exponent. *)
Definition pshift (m : positive) (t : nat) : positive := Nat.iter t xO m.

Definition canon (s : bool) (m : positive) : spec_float :=
  S754_finite s (pshift m (Z.to_nat (53 - Zpos (digits2_pos m))))
              (Zpos (digits2_pos m) - 53).

Definition canonZ (z : Z) : spec_float :=
  match z with
  | Z0 => S754_zero false
  | Zpos m => canon false m
  | Zneg m => canon true m
  end.

(** The integer of sign [s] and magnitude [m]. *)
Definition sval (s : bool) (m : positive) : Z := cond_Zopp s (Zpos m).

(** The test of line 64 for point [i], read on a condensed table. *)
Definition is_core (self : DBSCAN) (n : Z) (distance_matrix : list float) (i : Z) : bool :=
  len (filter (fun j => PrimFloat.ltb (cell distance_matrix n i j) (_eps self)) (others i n)) + 1
  >=? _min_samples self.

(** * Properties *)

(** ** Arithmetic of the condensed index *)

(** [j * (j + 1)] is even: the true division by 2 of the source is exact. *)
Lemma triangular_exact (j : Z) : 2 * (j * (j + 1) / 2) = j * (j + 1).
Proof.
  symmetry. apply Z.div_exact; [lia|].
  destruct (Z.Even_or_Odd j) as [[k ->] | [k ->]].
  - replace (2 * k * (2 * k + 1)) with ((k * (2 * k + 1)) * 2) by ring.
    apply Z.mod_mul; lia.
  - replace ((2 * k + 1) * (2 * k + 1 + 1)) with (((2 * k + 1) * (k + 1)) * 2) by ring.
    apply Z.mod_mul; lia.
Qed.

Lemma condensed_size_exact (n : Z) : 2 * condensed_size n = n * (n - 1).
Proof.
  unfold condensed_size.
  pose proof (triangular_exact (n - 1)) as H.
  replace (n - 1 + 1) with n in H by ring.
  replace (n * (n - 1)) with ((n - 1) * n) by ring. exact H.
Qed.

Lemma square_to_condensed_gt (i j n : Z) :
  j < i -> square_to_condensed i j n = Ok (offset n i j).
Proof.
  intros H. unfold square_to_condensed, offset.
  destruct (Z.eqb_spec i j); [lia|].
  destruct (Z.ltb_spec i j); [lia|]. reflexivity.
Qed.

Lemma square_to_condensed_lt (i j n : Z) :
  i < j -> square_to_condensed i j n = Ok (offset n j i).
Proof.
  intros H. unfold square_to_condensed, offset.
  destruct (Z.eqb_spec i j); [lia|].
  destruct (Z.ltb_spec i j); [|lia]. reflexivity.
Qed.

Lemma square_to_condensed_diag (i n : Z) :
  square_to_condensed i i n = Raise AssertionError.
Proof. unfold square_to_condensed. now rewrite Z.eqb_refl. Qed.

(** Twice the offset, free of division. *)
Lemma offset_double (n i j : Z) :
  2 * offset n i j = 2 * n * j - j * (j + 1) + 2 * i - 2 - 2 * j.
Proof. unfold offset. pose proof (triangular_exact j). lia. Qed.

Lemma offset_bounds (n i j : Z) :
  0 <= j < i -> i < n -> 0 <= offset n i j < condensed_size n.
Proof.
  intros Hj Hi.
  pose proof (offset_double n i j) as Ho.
  pose proof (condensed_size_exact n) as Hs.
  split; nia.
Qed.

(** Rows of the triangle do not overlap: a smaller [j] gives a smaller offset. *)
Lemma offset_row_lt (n i j i' j' : Z) :
  0 <= j < i -> i < n -> j < j' -> j' < i' -> i' < n ->
  offset n i j < offset n i' j'.
Proof.
  intros Hj Hi Hjj Hj' Hi'.
  pose proof (offset_double n i j) as Ho.
  pose proof (offset_double n i' j') as Ho'.
  nia.
Qed.

Lemma offset_inj (n i j i' j' : Z) :
  0 <= j < i -> i < n -> 0 <= j' < i' -> i' < n ->
  offset n i j = offset n i' j' -> i = i' /\ j = j'.
Proof.
  intros Hj Hi Hj' Hi' E.
  destruct (Z.lt_trichotomy j j') as [L | [-> | L]].
  - pose proof (offset_row_lt n i j i' j'). lia.
  - split; [|reflexivity]. unfold offset in E. lia.
  - pose proof (offset_row_lt n i' j' i j). lia.
Qed.

(** ** Lists, ranges and the monad *)

Lemma range_nil (a b : Z) : b <= a -> range a b = [].
Proof. intros H. unfold range. replace (Z.to_nat (b - a)) with 0%nat by lia. reflexivity. Qed.

Lemma range_cons (a b : Z) : a < b -> range a b = a :: range (a + 1) b.
Proof.
  intros H. unfold range.
  replace (Z.to_nat (b - a)) with (S (Z.to_nat (b - (a + 1)))) by lia.
  cbn [seq map]. f_equal; [lia|].
  rewrite <- seq_shift, map_map. apply map_ext. intros k. lia.
Qed.

Lemma length_range (a b : Z) : a <= b -> len (range a b) = b - a.
Proof. intros H. unfold len, range. rewrite length_map, length_seq. lia. Qed.

Lemma In_range (a b x : Z) : In x (range a b) <-> a <= x < b.
Proof.
  unfold range. rewrite in_map_iff. split.
  - intros (k & <- & Hk). apply in_seq in Hk. lia.
  - intros H. exists (Z.to_nat (x - a)). split; [lia|]. apply in_seq. lia.
Qed.

Lemma seq_from (s m : nat) : seq s m = map (fun k => (s + k)%nat) (seq 0 m).
Proof.
  induction s as [|s IH].
  - now rewrite map_id.
  - rewrite <- seq_shift, IH, map_map. reflexivity.
Qed.

Lemma range_split (a i b : Z) :
  a <= i < b -> range a b = range a i ++ i :: range (i + 1) b.
Proof.
  intros H. unfold range.
  replace (Z.to_nat (b - a)) with (Z.to_nat (i - a) + S (Z.to_nat (b - (i + 1))))%nat by lia.
  rewrite seq_app, map_app. f_equal. cbn [seq map]. f_equal; [lia|].
  rewrite (seq_from (S _)), map_map. apply map_ext. intros k. lia.
Qed.

Lemma range_sorted (a b : Z) : StronglySorted Z.lt (range a b).
Proof.
  unfold range. generalize (Z.to_nat (b - a)) as m. intros m. revert a.
  induction m as [|m IH]; intros a; cbn [seq map]; constructor.
  - rewrite (seq_from 1), map_map.
    replace (map _ (seq 0 m)) with (map (fun k => (a + 1) + Z.of_nat k) (seq 0 m))
      by (apply map_ext; intros; lia).
    apply IH.
  - apply Forall_forall. intros x Hx. apply in_map_iff in Hx as (k & <- & Hk).
    apply in_seq in Hk. lia.
Qed.

Lemma filter_sorted (p : Z -> bool) (l : list Z) :
  StronglySorted Z.lt l -> StronglySorted Z.lt (filter p l).
Proof.
  induction 1 as [|x l Hs IH Hx]; cbn; [constructor|].
  destruct (p x); [|exact IH].
  constructor; [exact IH|].
  apply Forall_forall. intros y Hy. apply filter_In in Hy as [Hy _].
  rewrite Forall_forall in Hx. auto.
Qed.

Lemma sorted_NoDup (l : list Z) : StronglySorted Z.lt l -> NoDup l.
Proof.
  induction 1 as [|x l Hs IH Hx]; constructor; [|exact IH].
  intros Hin. rewrite Forall_forall in Hx. specialize (Hx _ Hin). lia.
Qed.

Lemma combine_repeat {A B : Type} (x : A) (l : list B) (k : nat) :
  (length l <= k)%nat -> combine (repeat x k) l = map (pair x) l.
Proof.
  revert k. induction l as [|y l IH]; intros k Hk.
  - now destruct k.
  - destruct k as [|k]; cbn in *; [lia|]. f_equal. apply IH. lia.
Qed.

Lemma mapM_ok {A B : Type} (f : A -> result B) (g : A -> B) (l : list A) :
  (forall x, In x l -> f x = Ok (g x)) -> mapM f l = Ok (map g l).
Proof.
  induction l as [|x l IH]; intros H; cbn; [reflexivity|].
  rewrite (H x) by now left. cbn.
  rewrite IH by (intros; apply H; now right). reflexivity.
Qed.

Lemma take1_ok {A : Type} (a : list A) (k : Z) (d : A) :
  0 <= k < len a -> np.take1 a k = Ok (nth (Z.to_nat k) a d).
Proof.
  intros H. unfold np.take1.
  destruct (Z.ltb_spec k (- len a)); [lia|].
  destruct (Z.leb_spec (len a) k); [lia|]. cbn [orb].
  destruct (Z.ltb_spec k 0); [lia|].
  destruct (nth_error a (Z.to_nat k)) eqn:E.
  - now rewrite (nth_error_nth _ _ _ E).
  - apply nth_error_None in E. unfold len in H. lia.
Qed.

Lemma take_ok {A : Type} (a : list A) (ks : list Z) (d : A) :
  Forall (fun k => 0 <= k < len a) ks ->
  np.take a ks = Ok (map (fun k => nth (Z.to_nat k) a d) ks).
Proof.
  intros H. apply mapM_ok. intros k Hk.
  rewrite Forall_forall in H. now apply take1_ok, H.
Qed.

Lemma length_others (i n : Z) : 0 <= i < n -> len (others i n) = n - 1.
Proof.
  intros H. unfold others, len. rewrite length_app.
  pose proof (length_range 0 i). pose proof (length_range (i + 1) n).
  unfold len in *. lia.
Qed.

Lemma In_others (i n j : Z) : 0 <= i < n -> In j (others i n) <-> 0 <= j < n /\ j <> i.
Proof.
  intros H. unfold others. rewrite in_app_iff, !In_range. lia.
Qed.

(** ** The condensed table of [pdist] *)

Lemma condensed_size_succ (n : Z) : condensed_size (n + 1) = n + condensed_size n.
Proof.
  pose proof (condensed_size_exact n). pose proof (condensed_size_exact (n + 1)). nia.
Qed.

Lemma offset_zero (n i : Z) : offset n i 0 = i - 1.
Proof. unfold offset. cbn. lia. Qed.

Lemma offset_succ (n i j : Z) : offset (n + 1) (i + 1) (j + 1) = n + offset n i j.
Proof.
  pose proof (offset_double n i j). pose proof (offset_double (n + 1) (i + 1) (j + 1)). nia.
Qed.

Lemma length_pdist (X : list (list float)) : len (scipy.pdist X) = condensed_size (len X).
Proof.
  induction X as [|u rest IH]; [reflexivity|].
  cbn [scipy.pdist]. unfold len in *. rewrite length_app, length_map, Nat2Z.inj_add, IH.
  cbn [length]. rewrite Nat2Z.inj_succ, <- Z.add_1_r, condensed_size_succ. reflexivity.
Qed.

(** The cell of the pair [a < b] holds the metric of rows [a] and [b]. *)
Lemma pdist_nth (X : list (list float)) (a b : nat) (d : float) :
  (a < b < length X)%nat ->
  nth (Z.to_nat (offset (len X) (Z.of_nat b) (Z.of_nat a))) (scipy.pdist X) d
  = scipy.euclidean (nth a X []) (nth b X []).
Proof.
  revert a b. induction X as [|u rest IH]; intros a b H; cbn [length] in H; [lia|].
  destruct b as [|b]; [lia|].
  cbn [scipy.pdist].
  destruct a as [|a].
  - rewrite offset_zero.
    replace (Z.to_nat (Z.of_nat (S b) - 1)) with b by lia.
    rewrite app_nth1 by (rewrite length_map; lia).
    rewrite (nth_indep _ d (scipy.euclidean u [])) by (rewrite length_map; lia).
    rewrite map_nth. reflexivity.
  - replace (len (u :: rest)) with (len rest + 1) by (unfold len; cbn [length]; lia).
    rewrite !Nat2Z.inj_succ, <- !Z.add_1_r, offset_succ.
    pose proof (offset_bounds (len rest) (Z.of_nat b) (Z.of_nat a)) as Hb.
    unfold len in *.
    rewrite app_nth2 by (rewrite length_map; lia).
    rewrite length_map.
    replace (Z.to_nat (Z.of_nat (length rest) + offset (Z.of_nat (length rest)) (Z.of_nat b) (Z.of_nat a))
             - length rest)%nat
      with (Z.to_nat (offset (Z.of_nat (length rest)) (Z.of_nat b) (Z.of_nat a))) by lia.
    cbn [nth]. apply IH. lia.
Qed.

Lemma cell_pdist (data : list (list float)) (i j : Z) :
  0 <= i < len data -> 0 <= j < len data -> i <> j ->
  cell (scipy.pdist data) (len data) i j = distance data i j.
Proof.
  intros Hi Hj Hij. unfold cell, distance, row.
  pose proof (pdist_nth data (Z.to_nat (Z.min i j)) (Z.to_nat (Z.max i j)) nan) as H.
  rewrite !Z2Nat.id in H by lia. apply H. unfold len in *. lia.
Qed.

(** ** The helpers on a condensed table of the right size *)

Lemma get_distances_ok (i n : Z) (distance_matrix : list float) :
  0 <= i < n -> len distance_matrix = condensed_size n ->
  get_distances_from_other_points i n distance_matrix
  = Ok (map (cell distance_matrix n i) (others i n)).
Proof.
  intros Hi Hlen. unfold get_distances_from_other_points, zip, chain, repeat_n.
  fold (others i n).
  rewrite combine_repeat by (pose proof (length_others i n Hi); unfold len in *; lia).
  rewrite (mapM_ok _ (fun p => offset n (Z.max (fst p) (snd p)) (Z.min (fst p) (snd p)))).
  - cbn [bind]. rewrite (take_ok _ _ nan).
    + rewrite !map_map. reflexivity.
    + apply Forall_forall. intros k Hk.
      apply in_map_iff in Hk as (p & <- & Hp).
      apply in_map_iff in Hp as (j & <- & Hj).
      apply In_others in Hj; [|exact Hi]. cbn [fst snd]. rewrite Hlen.
      apply offset_bounds; lia.
  - intros p Hp. apply in_map_iff in Hp as (j & <- & Hj).
    apply In_others in Hj; [|exact Hi]. cbn [fst snd].
    destruct (Z.lt_trichotomy i j) as [L | [E | L]]; [|lia|].
    + rewrite square_to_condensed_lt by exact L.
      now rewrite Z.max_r, Z.min_l by lia.
    + rewrite square_to_condensed_gt by exact L.
      now rewrite Z.max_l, Z.min_r by lia.
Qed.

Lemma count_nonzero_mask {A : Type} (f : A -> float) (eps : float) (l : list A) :
  np.count_nonzero (np.where_ (np.less (map f l) eps) 1 0)
  = len (filter (fun x => PrimFloat.ltb (f x) eps) l).
Proof.
  unfold np.count_nonzero, np.where_, np.less, len. f_equal.
  induction l as [|x l IH]; [reflexivity|].
  cbn [map filter]. destruct (PrimFloat.ltb (f x) eps); cbn [Z.eqb negb length]; lia.
Qed.

Lemma less_than_eps_ok (self : DBSCAN) (i n : Z) (distance_matrix : list float) :
  0 <= i < n -> len distance_matrix = condensed_size n ->
  less_than_eps self i n distance_matrix
  = Ok (map (fun j => if PrimFloat.ltb (cell distance_matrix n i j) (_eps self) then 1 else 0)
            (others i n)).
Proof.
  intros Hi Hlen. unfold less_than_eps. rewrite get_distances_ok by assumption.
  cbn [bind]. unfold np.where_, np.less. now rewrite !map_map.
Qed.

Lemma num_less_than_eps_ok (self : DBSCAN) (i n : Z) (distance_matrix : list float) :
  0 <= i < n -> len distance_matrix = condensed_size n ->
  num_less_than_eps self i n distance_matrix
  = Ok (len (filter (fun j => PrimFloat.ltb (cell distance_matrix n i j) (_eps self))
                    (others i n)) + 1).
Proof.
  intros Hi Hlen. unfold num_less_than_eps, less_than_eps.
  rewrite get_distances_ok by assumption. cbn [bind].
  now rewrite count_nonzero_mask.
Qed.

Lemma core_loop_ok (self : DBSCAN) (n : Z) (distance_matrix : list float)
    (indices acc : list Z) :
  len distance_matrix = condensed_size n ->
  Forall (fun i => 0 <= i < n) indices ->
  core_loop self n distance_matrix indices acc
  = Ok (acc ++ filter (is_core self n distance_matrix) indices).
Proof.
  intros Hlen H. revert acc.
  induction H as [|i rest Hi Hrest IH]; intros acc; cbn [core_loop filter].
  - now rewrite app_nil_r.
  - rewrite num_less_than_eps_ok by assumption. cbn [bind]. fold (is_core self n distance_matrix i).
    destruct (is_core self n distance_matrix i).
    + rewrite IH, <- app_assoc. reflexivity.
    + apply IH.
Qed.

Lemma range_in_bounds (n : Z) : Forall (fun i => 0 <= i < n) (range 0 n).
Proof. apply Forall_forall. intros i Hi. now apply In_range in Hi. Qed.

Lemma get_core_sample_indices_ok (self : DBSCAN) (n : Z) (distance_matrix : list float) :
  len distance_matrix = condensed_size n ->
  _get_core_sample_indices self n distance_matrix
  = Ok (filter (is_core self n distance_matrix) (range 0 n)).
Proof.
  intros Hlen. unfold _get_core_sample_indices.
  now rewrite core_loop_ok by (assumption || apply range_in_bounds).
Qed.

(** ** [fit] *)

Lemma filter_others (P : Z -> bool) (i n : Z) :
  0 <= i < n ->
  filter (fun j => negb (j =? i) && P j) (range 0 n) = filter P (others i n).
Proof.
  intros Hi. rewrite (range_split 0 i n) by exact Hi. unfold others.
  rewrite !filter_app. cbn [filter]. rewrite Z.eqb_refl. cbn [negb andb].
  f_equal; apply filter_ext_in; intros j Hj; apply In_range in Hj;
    destruct (Z.eqb_spec j i); (lia || reflexivity).
Qed.

Lemma is_core_pdist (self : DBSCAN) (data : list (list float)) (i : Z) :
  0 <= i < len data ->
  is_core self (len data) (scipy.pdist data) i
  = (neighbor_count data (_eps self) i + 1 >=? _min_samples self).
Proof.
  intros Hi. unfold is_core, neighbor_count.
  rewrite filter_others by exact Hi.
  do 3 f_equal. apply filter_ext_in. intros j Hj.
  apply In_others in Hj; [|exact Hi].
  now rewrite cell_pdist by lia.
Qed.

Lemma fit_on_ok (self : DBSCAN) (data : list (list float)) :
  fit_on self data
  = match filter (is_core self (len data) (scipy.pdist data)) (range 0 (len data)) with
    | [] => (set_core_sample_indices self [], Some TypeError)
    | i :: core =>
        ({| _eps := _eps self;
            _min_samples := _min_samples self;
            core_sample_indices_ := Some (i :: core);
            components_ := Some (map (row data) (i :: core));
            labels_ := labels_ self |}, None)
    end.
Proof.
  unfold fit_on.
  rewrite get_core_sample_indices_ok by apply length_pdist.
  pose proof (incl_filter (is_core self (len data) (scipy.pdist data))
                          (range 0 (len data))) as Hin.
  destruct (filter _ _) as [|i core]; [reflexivity|].
  unfold np.take_array. cbn [np.array_dtype].
  rewrite (take_ok _ _ []).
  - reflexivity.
  - apply Forall_forall. intros k Hk. apply Hin in Hk. now apply In_range in Hk.
Qed.

Lemma fit_ok (self : DBSCAN) (data : list (list float)) :
  filter (is_core self (len data) (scipy.pdist data)) (range 0 (len data)) <> [] ->
  fit self data
  = Ok {| _eps := _eps self;
          _min_samples := _min_samples self;
          core_sample_indices_ :=
            Some (filter (is_core self (len data) (scipy.pdist data)) (range 0 (len data)));
          components_ :=
            Some (map (row data)
                      (filter (is_core self (len data) (scipy.pdist data))
                              (range 0 (len data))));
          labels_ := labels_ self |}.
Proof.
  intros Hne. unfold fit. rewrite fit_on_ok.
  destruct (filter _ _) as [|i core]; [contradiction|reflexivity].
Qed.

Lemma fit_inv (self : DBSCAN) (data : list (list float)) (r : DBSCAN) :
  fit self data = Ok r ->
  filter (is_core self (len data) (scipy.pdist data)) (range 0 (len data)) <> [] /\
  r = {| _eps := _eps self;
         _min_samples := _min_samples self;
         core_sample_indices_ :=
           Some (filter (is_core self (len data) (scipy.pdist data)) (range 0 (len data)));
         components_ :=
           Some (map (row data)
                     (filter (is_core self (len data) (scipy.pdist data))
                             (range 0 (len data))));
         labels_ := labels_ self |}.
Proof.
  unfold fit. rewrite fit_on_ok.
  destruct (filter _ _) as [|i core]; [discriminate|].
  intros [= <-]. split; [discriminate|reflexivity].
Qed.

(** ** Integers in binary64 *)

Lemma pshift_S m t : pshift m (S t) = xO (pshift m t).
Proof. reflexivity. Qed.

Lemma pshift_add m a b : pshift (pshift m a) b = pshift m (a + b).
Proof.
  induction b as [|b IH]; [now rewrite Nat.add_0_r|].
  rewrite Nat.add_succ_r, !pshift_S. now rewrite IH.
Qed.

Lemma Zpos_pshift m t : Zpos (pshift m t) = Zpos m * 2 ^ Z.of_nat t.
Proof.
  induction t as [|t IH]; [cbn; lia|].
  rewrite pshift_S, Pos2Z.inj_xO, IH, Nat2Z.inj_succ, Z.pow_succ_r by lia. ring.
Qed.

Lemma digits_pshift m t :
  Zpos (digits2_pos (pshift m t)) = Zpos (digits2_pos m) + Z.of_nat t.
Proof.
  induction t as [|t IH]; [cbn; lia|].
  rewrite pshift_S. cbn [digits2_pos]. rewrite Pos2Z.inj_succ, IH. lia.
Qed.

Lemma pos_iter_pshift m p : Pos.iter xO m p = pshift m (Pos.to_nat p).
Proof. unfold pshift. apply Pos2Nat.inj_iter. Qed.

Lemma iter_pos_nat {A : Type} (f : A -> A) (p : positive) (x : A) :
  iter_pos f p x = Nat.iter (Pos.to_nat p) f x.
Proof.
  revert x. induction p as [p IH | p IH |]; intros x; cbn [iter_pos].
  - rewrite !IH, Pos2Nat.inj_xI.
    replace (S (2 * Pos.to_nat p)) with (S (Pos.to_nat p + Pos.to_nat p)) by lia.
    now rewrite Nat.iter_succ_r, Nat.iter_add.
  - rewrite !IH, Pos2Nat.inj_xO.
    replace (2 * Pos.to_nat p)%nat with (Pos.to_nat p + Pos.to_nat p)%nat by lia.
    now rewrite Nat.iter_add.
  - reflexivity.
Qed.

Lemma shr_iter m t :
  Nat.iter t shr_1 (Build_shr_record (Zpos (pshift m t)) false false)
  = Build_shr_record (Zpos m) false false.
Proof.
  induction t as [|t IH]; [reflexivity|].
  rewrite Nat.iter_succ_r, pshift_S. cbn [shr_1 orb]. exact IH.
Qed.

Lemma digits_lower m : 2 ^ (Zpos (digits2_pos m) - 1) <= Zpos m.
Proof.
  induction m as [m IH | m IH |]; cbn [digits2_pos]; [| |cbn; lia].
  - rewrite Pos2Z.inj_succ. replace (Z.succ (Zpos (digits2_pos m)) - 1)
      with (Z.succ (Zpos (digits2_pos m) - 1)) by lia.
    rewrite Z.pow_succ_r by lia. lia.
  - rewrite Pos2Z.inj_succ. replace (Z.succ (Zpos (digits2_pos m)) - 1)
      with (Z.succ (Zpos (digits2_pos m) - 1)) by lia.
    rewrite Z.pow_succ_r by lia. lia.
Qed.

Lemma digits_le m k : 0 <= k -> Zpos m < 2 ^ k -> Zpos (digits2_pos m) <= k.
Proof.
  intros Hk H. pose proof (digits_lower m) as L.
  destruct (Z.le_gt_cases (Zpos (digits2_pos m)) k) as [G|G]; [exact G|].
  assert (2 ^ k <= 2 ^ (Zpos (digits2_pos m) - 1)) by (apply Z.pow_le_mono_r; lia).
  lia.
Qed.

Lemma fexp_small d : 1 <= d -> fexp prec emax d = d - 53.
Proof. intros H. unfold fexp, SpecFloat.emin, prec, emax. lia. Qed.

Lemma shr_shifted mz u e0 :
  shr (Build_shr_record (Zpos (pshift mz u)) false false) (e0 - Z.of_nat u) (Z.of_nat u)
  = (Build_shr_record (Zpos mz) false false, e0).
Proof.
  destruct u as [|u].
  - cbn. f_equal. lia.
  - cbn [Z.of_nat]. unfold shr.
    rewrite iter_pos_nat, SuccNat2Pos.id_succ, shr_iter. f_equal. lia.
Qed.

(** Rounding a 53-bit mantissa shifted left by [u] bits gives it back. *)
Lemma round_aux_shifted s mz u e0 :
  Zpos (digits2_pos mz) = 53 -> -1074 <= e0 <= 971 ->
  binary_round_aux prec emax s (Zpos (pshift mz u)) (e0 - Z.of_nat u) loc_Exact
  = S754_finite s mz e0.
Proof.
  intros Hd He.
  assert (Hf : fexp prec emax (53 + e0) = e0)
    by (unfold fexp, SpecFloat.emin, prec, emax; lia).
  unfold binary_round_aux, shr_fexp.
  cbn [Zdigits2 shr_record_of_loc]. rewrite digits_pshift, Hd.
  replace (53 + Z.of_nat u + (e0 - Z.of_nat u)) with (53 + e0) by lia.
  rewrite Hf.
  replace (e0 - (e0 - Z.of_nat u)) with (Z.of_nat u) by lia.
  rewrite shr_shifted.
  cbn [shr_m loc_of_shr_record round_nearest_even Zdigits2 shr_record_of_loc].
  rewrite Hd, Hf, Z.sub_diag. cbn [shr shr_m].
  destruct (Z.leb_spec e0 (emax - prec)) as [_|H]; [reflexivity|].
  unfold emax, prec in H. lia.
Qed.

(** Rounding [m * 2^t] at exponent [-t] gives the canonical form of [m]. *)
Lemma round_shift s m t :
  Zpos (digits2_pos m) <= 53 ->
  binary_round prec emax s (pshift m t) (- Z.of_nat t) = canon s m.
Proof.
  intros Hd. unfold canon. set (d := Zpos (digits2_pos m)) in *.
  assert (1 <= d) by (unfold d; lia).
  set (mz := pshift m (Z.to_nat (53 - d))).
  assert (Hmz : Zpos (digits2_pos mz) = 53)
    by (unfold mz; rewrite digits_pshift; fold d; lia).
  unfold binary_round. rewrite digits_pshift. fold d.
  replace (d + Z.of_nat t + - Z.of_nat t) with d by lia.
  rewrite fexp_small by assumption.
  unfold shl_align.
  destruct (d - 53 - - Z.of_nat t) as [|p|p] eqn:E.
  - replace (pshift m t) with (pshift mz 0)
      by (change (pshift mz 0) with mz; unfold mz; f_equal; lia).
    replace (- Z.of_nat t) with (d - 53 - Z.of_nat 0) by (change (Z.of_nat 0) with 0; lia).
    apply round_aux_shifted; [exact Hmz|lia].
  - replace (pshift m t) with (pshift mz (Pos.to_nat p))
      by (unfold mz; rewrite pshift_add; f_equal; lia).
    replace (- Z.of_nat t) with (d - 53 - Z.of_nat (Pos.to_nat p)) by lia.
    apply round_aux_shifted; [exact Hmz|lia].
  - rewrite pos_iter_pshift, pshift_add.
    replace (pshift m (t + Pos.to_nat p)) with (pshift mz 0)
      by (change (pshift mz 0) with mz; unfold mz; f_equal; lia).
    replace (d - 53) with (d - 53 - Z.of_nat 0) at 1 by (change (Z.of_nat 0) with 0; lia).
    apply round_aux_shifted; [exact Hmz|lia].
Qed.

Lemma normalize_shift z t :
  Z.abs z < 2 ^ 53 ->
  binary_normalize prec emax (z * 2 ^ Z.of_nat t) (- Z.of_nat t) false = canonZ z.
Proof.
  intros Hz. destruct z as [|m|m]; [reflexivity| |].
  - rewrite <- Zpos_pshift. cbn [binary_normalize canonZ].
    apply round_shift, digits_le; lia.
  - replace (Z.neg m * 2 ^ Z.of_nat t) with (- Zpos (pshift m t))
      by (rewrite Zpos_pshift; lia).
    cbn [Z.opp binary_normalize canonZ].
    apply round_shift, digits_le; lia.
Qed.

Lemma Z2SF_canon z : Z.abs z < 2 ^ 53 -> Z2SF z = canonZ z.
Proof.
  intros Hz. unfold Z2SF.
  pose proof (normalize_shift z 0 Hz) as H. cbn [Z.of_nat Z.opp] in H.
  now rewrite Z.pow_0_r, Z.mul_1_r in H.
Qed.

Lemma canonZ_valid z : Z.abs z < 2 ^ 53 -> valid_binary (canonZ z) = true.
Proof.
  intros Hz.
  assert (G : forall s m, Zpos m < 2 ^ 53 -> valid_binary (canon s m) = true).
  { intros s m Hm. pose proof (digits_le m 53 ltac:(lia) Hm) as Hd.
    unfold canon. cbn [SpecFloat.valid_binary]. unfold bounded, canonical_mantissa.
    rewrite digits_pshift.
    replace (Zpos (digits2_pos m) + Z.of_nat (Z.to_nat (53 - Zpos (digits2_pos m)))
             + (Zpos (digits2_pos m) - 53)) with (Zpos (digits2_pos m)) by lia.
    rewrite fexp_small by lia. rewrite Z.eqb_refl. cbn [andb].
    apply Z.leb_le. unfold emax, prec. lia. }
  destruct z as [|m|m]; [reflexivity| |]; apply G; lia.
Qed.

Lemma shl_align_value mx ex ez :
  ez <= ex -> Zpos (fst (shl_align mx ex ez)) = Zpos mx * 2 ^ (ex - ez).
Proof.
  intros H. unfold shl_align. destruct (ez - ex) as [|p|p] eqn:E.
  - replace (ex - ez) with 0 by lia. cbn [fst]. lia.
  - lia.
  - cbn [fst]. rewrite pos_iter_pshift, Zpos_pshift, positive_nat_Z.
    replace (ex - ez) with (Zpos p) by lia. reflexivity.
Qed.

Lemma canon_aligned s m ez :
  Zpos (digits2_pos m) <= 53 -> ez <= Zpos (digits2_pos m) - 53 ->
  cond_Zopp s (Zpos (fst (shl_align (pshift m (Z.to_nat (53 - Zpos (digits2_pos m))))
                                    (Zpos (digits2_pos m) - 53) ez)))
  = sval s m * 2 ^ (- ez).
Proof.
  intros Hd He. rewrite shl_align_value by exact He.
  rewrite Zpos_pshift, Z2Nat.id by lia.
  rewrite <- Z.mul_assoc, <- Z.pow_add_r by lia.
  replace (53 - Zpos (digits2_pos m) + (Zpos (digits2_pos m) - 53 - ez)) with (- ez) by lia.
  unfold sval. destruct s; cbn [cond_Zopp]; lia.
Qed.

Lemma SFadd_canon a b :
  Z.abs a < 2 ^ 53 -> Z.abs b < 2 ^ 53 -> Z.abs (a + b) < 2 ^ 53 ->
  SF64add (canonZ a) (canonZ b) = canonZ (a + b).
Proof.
  intros Ha Hb Hab.
  assert (G : forall sa ma sb mb,
    Zpos ma < 2 ^ 53 -> Zpos mb < 2 ^ 53 -> Z.abs (sval sa ma + sval sb mb) < 2 ^ 53 ->
    SF64add (canon sa ma) (canon sb mb) = canonZ (sval sa ma + sval sb mb)).
  { intros sa ma sb mb Hma Hmb Hs.
    pose proof (digits_le ma 53 ltac:(lia) Hma) as Hda.
    pose proof (digits_le mb 53 ltac:(lia) Hmb) as Hdb.
    unfold SF64add, canon. cbn [SFadd].
    set (ez := Z.min (Zpos (digits2_pos ma) - 53) (Zpos (digits2_pos mb) - 53)).
    rewrite !canon_aligned by (unfold ez; lia).
    rewrite <- Z.mul_add_distr_r.
    replace (- ez) with (Z.of_nat (Z.to_nat (- ez))) by (unfold ez; lia).
    replace ez with (- Z.of_nat (Z.to_nat (- ez))) at 2 by (unfold ez; lia).
    apply normalize_shift. exact Hs. }
  destruct a as [|ma|ma], b as [|mb|mb]; try reflexivity.
  - apply (G false ma false mb); cbn in *; lia.
  - apply (G false ma true mb); cbn in *; lia.
  - apply (G true ma false mb); cbn in *; lia.
  - apply (G true ma true mb); cbn in *; lia.
Qed.

Lemma SFsub_canon a b :
  Z.abs a < 2 ^ 53 -> Z.abs b < 2 ^ 53 -> Z.abs (a - b) < 2 ^ 53 ->
  SF64sub (canonZ a) (canonZ b) = canonZ (a - b).
Proof.
  intros Ha Hb Hab.
  assert (G : forall sa ma sb mb,
    Zpos ma < 2 ^ 53 -> Zpos mb < 2 ^ 53 -> Z.abs (sval sa ma - sval sb mb) < 2 ^ 53 ->
    SF64sub (canon sa ma) (canon sb mb) = canonZ (sval sa ma - sval sb mb)).
  { intros sa ma sb mb Hma Hmb Hs.
    pose proof (digits_le ma 53 ltac:(lia) Hma) as Hda.
    pose proof (digits_le mb 53 ltac:(lia) Hmb) as Hdb.
    unfold SF64sub, canon. cbn [SFsub].
    set (ez := Z.min (Zpos (digits2_pos ma) - 53) (Zpos (digits2_pos mb) - 53)).
    rewrite !canon_aligned by (unfold ez; lia).
    rewrite <- Z.mul_sub_distr_r.
    replace (- ez) with (Z.of_nat (Z.to_nat (- ez))) by (unfold ez; lia).
    replace ez with (- Z.of_nat (Z.to_nat (- ez))) at 2 by (unfold ez; lia).
    apply normalize_shift. exact Hs. }
  destruct a as [|ma|ma], b as [|mb|mb]; try reflexivity.
  - apply (G false ma false mb); cbn in *; lia.
  - apply (G false ma true mb); cbn in *; lia.
  - apply (G true ma false mb); cbn in *; lia.
  - apply (G true ma true mb); cbn in *; lia.
Qed.

Theorem float_add_exact a b :
  Z.abs a < 2 ^ 53 -> Z.abs b < 2 ^ 53 -> Z.abs (a + b) < 2 ^ 53 ->
  (float_of_Z a + float_of_Z b)%float = float_of_Z (a + b).
Proof.
  intros Ha Hb Hab. apply Prim2SF_inj. rewrite add_spec. unfold float_of_Z.
  rewrite !Z2SF_canon by assumption.
  rewrite !Prim2SF_SF2Prim by now apply canonZ_valid.
  now apply SFadd_canon.
Qed.

Theorem float_sub_exact a b :
  Z.abs a < 2 ^ 53 -> Z.abs b < 2 ^ 53 -> Z.abs (a - b) < 2 ^ 53 ->
  (float_of_Z a - float_of_Z b)%float = float_of_Z (a - b).
Proof.
  intros Ha Hb Hab. apply Prim2SF_inj. rewrite sub_spec. unfold float_of_Z.
  rewrite !Z2SF_canon by assumption.
  rewrite !Prim2SF_SF2Prim by now apply canonZ_valid.
  now apply SFsub_canon.
Qed.

Lemma canonZ_inj a b :
  Z.abs a < 2 ^ 53 -> Z.abs b < 2 ^ 53 -> canonZ a = canonZ b -> a = b.
Proof.
  intros Ha Hb E.
  assert (G : forall s ma mb, Zpos ma < 2 ^ 53 -> Zpos mb < 2 ^ 53 ->
              canon s ma = canon s mb -> ma = mb).
  { intros s ma mb Hma Hmb H. unfold canon in H.
    pose proof (f_equal (fun x => match x with S754_finite _ _ e => e | _ => 0 end) H) as He.
    pose proof (f_equal (fun x => match x with S754_finite _ m _ => Zpos m | _ => 0 end) H)
      as Hm.
    cbv beta iota in He, Hm.
    assert (Hd : Zpos (digits2_pos ma) = Zpos (digits2_pos mb)) by lia.
    rewrite Hd in Hm. rewrite !Zpos_pshift in Hm.
    assert (0 < 2 ^ Z.of_nat (Z.to_nat (53 - Zpos (digits2_pos mb))))
      by (apply Z.pow_pos_nonneg; lia).
    nia. }
  destruct a as [|ma|ma], b as [|mb|mb]; try reflexivity; try discriminate E.
  - f_equal. apply (G false); (cbn in *; lia) || exact E.
  - f_equal. apply (G true); (cbn in *; lia) || exact E.
Qed.

Theorem float_of_Z_inj a b :
  Z.abs a < 2 ^ 53 -> Z.abs b < 2 ^ 53 -> float_of_Z a = float_of_Z b -> a = b.
Proof.
  intros Ha Hb E. unfold float_of_Z in E.
  apply SF2Prim_inj in E.
  - rewrite !Z2SF_canon in E by assumption. now apply canonZ_inj.
  - rewrite Z2SF_canon by assumption. now apply canonZ_valid.
  - rewrite Z2SF_canon by assumption. now apply canonZ_valid.
Qed.

(** ** Line 99 in binary64 *)

Lemma float_of_int_exact (z : Z) :
  Z.abs z < 2 ^ 53 -> float_of_int z = Ok (float_of_Z z).
Proof.
  intros H. unfold float_of_int, float_of_Z. rewrite Z2SF_canon by exact H.
  destruct z; reflexivity.
Qed.

Lemma true_divide_2_exact (c : Z) :
  Z.abs c < 2 ^ 53 -> true_divide_2 (2 * c) = Ok (float_of_Z c).
Proof.
  intros H. unfold true_divide_2, float_of_Z. rewrite Z2SF_canon by exact H.
  pose proof (normalize_shift c 1 H) as N.
  change (- Z.of_nat 1) with (-1) in N. change (2 ^ Z.of_nat 1) with 2 in N.
  rewrite (Z.mul_comm 2 c), N. destruct c; reflexivity.
Qed.

Lemma float_one : 1%float = float_of_Z 1.
Proof. vm_compute. reflexivity. Qed.

(** The arithmetic of line 99, once the pair is ordered: when no intermediate
    value reaches 2^53, nothing is rounded and nothing overflows. *)
Lemma line_99_exact (i j n : Z) :
  Z.abs i < 2 ^ 53 -> Z.abs j < 2 ^ 53 ->
  Z.abs (j * (j + 1) / 2) < 2 ^ 53 ->
  Z.abs (n * j) < 2 ^ 53 ->
  Z.abs (n * j - j * (j + 1) / 2) < 2 ^ 53 ->
  Z.abs (n * j - j * (j + 1) / 2 + i) < 2 ^ 53 ->
  Z.abs (n * j - j * (j + 1) / 2 + i - 1) < 2 ^ 53 ->
  Z.abs (n * j - j * (j + 1) / 2 + i - 1 - j) < 2 ^ 53 ->
  (half <- true_divide_2 (j * (j + 1)) ;;
   nj <- float_of_int (n * j) ;;
   fi <- float_of_int i ;;
   fj <- float_of_int j ;;
   Ok (nj - half + fi - 1 - fj)%float)
  = Ok (float_of_Z (n * j - j * (j + 1) / 2 + i - 1 - j)).
Proof.
  intros Hi Hj Hq Hnj H1 H2 H3 H4.
  remember (j * (j + 1) / 2) as q eqn:Eq.
  replace (j * (j + 1)) with (2 * q) by (subst q; apply triangular_exact).
  rewrite true_divide_2_exact by exact Hq. cbn [bind].
  rewrite !float_of_int_exact by assumption. cbn [bind].
  rewrite float_one.
  rewrite float_sub_exact by assumption.
  rewrite float_add_exact by assumption.
  rewrite float_sub_exact by (assumption || (cbn; lia)).
  rewrite float_sub_exact by assumption.
  reflexivity.
Qed.

(** The source's float is the exact index for indices of moderate size. *)
Lemma square_to_condensed_binary64_exact (i j n : Z) :
  Z.abs i <= 33554432 -> Z.abs j <= 33554432 -> Z.abs n <= 33554432 ->
  square_to_condensed_binary64 i j n
  = (k <- square_to_condensed i j n ;; Ok (float_of_Z k)).
Proof.
  assert (G : forall a b, Z.abs a <= 33554432 -> Z.abs b <= 33554432 ->
    Z.abs n <= 33554432 ->
    (half <- true_divide_2 (b * (b + 1)) ;;
     nj <- float_of_int (n * b) ;;
     fi <- float_of_int a ;;
     fj <- float_of_int b ;;
     Ok (nj - half + fi - 1 - fj)%float)
    = Ok (float_of_Z (n * b - b * (b + 1) / 2 + a - 1 - b))).
  { intros a b Ha Hb Hn. pose proof (triangular_exact b) as T.
    change (2 ^ 53) with 9007199254740992 in *.
    assert (Z.abs (n * b) <= 33554432 * 33554432) by nia.
    assert (Z.abs (b * (b + 1) / 2) <= 33554432 * 33554432) by nia.
    apply line_99_exact; change (2 ^ 53) with 9007199254740992; lia. }
  intros Hi Hj Hn. unfold square_to_condensed_binary64, square_to_condensed.
  destruct (i =? j); [reflexivity|].
  destruct (i <? j); cbn [bind]; now apply G.
Qed.

(** The same for the pairs of a table of at most 94906265 points. *)
Lemma square_to_condensed_binary64_offset (i j n : Z) :
  0 <= j < i -> i < n -> n <= 94906265 ->
  square_to_condensed_binary64 i j n = Ok (float_of_Z (offset n i j)).
Proof.
  intros Hj Hi Hn. unfold square_to_condensed_binary64, offset.
  destruct (Z.eqb_spec i j); [lia|].
  destruct (Z.ltb_spec i j); [lia|].
  pose proof (triangular_exact j) as T.
  assert (0 <= n * j <= 94906265 * 94906263) by nia.
  assert (0 <= j * (j + 1) / 2 <= n * j) by nia.
  apply line_99_exact; change (2 ^ 53) with 9007199254740992; nia.
Qed.

Lemma square_to_condensed_binary64_sym (i j n : Z) :
  square_to_condensed_binary64 i j n = square_to_condensed_binary64 j i n.
Proof.
  unfold square_to_condensed_binary64. rewrite (Z.eqb_sym j i).
  destruct (Z.eqb_spec i j) as [|Hne]; [reflexivity|].
  destruct (Z.ltb_spec i j), (Z.ltb_spec j i); (lia || reflexivity).
Qed.

(** ** Strict comparison of floats *)

(** A distance that compares equal to [eps] is not below [eps]. *)
Lemma ltb_false_of_eqb (d eps : float) :
  PrimFloat.eqb d eps = true -> PrimFloat.ltb d eps = false.
Proof.
  rewrite eqb_spec, ltb_spec. unfold SFeqb, SFltb.
  destruct (SFcompare (Prim2SF d) (Prim2SF eps)) as [[| |]|]; congruence.
Qed.

Lemma nth_range (a b : Z) (k : nat) (d : Z) :
  Z.of_nat k < b - a -> nth k (range a b) d = a + Z.of_nat k.
Proof.
  intros H. unfold range.
  rewrite (nth_indep _ d (a + Z.of_nat 0)) by (rewrite length_map, length_seq; lia).
  rewrite (map_nth (fun k => a + Z.of_nat k)), seq_nth by lia. reflexivity.
Qed.

(** The position of point [j] in the vector returned for point [i]. *)
Lemma nth_others (i n j d : Z) :
  0 <= i < n -> 0 <= j < n -> j <> i ->
  nth (Z.to_nat (if j <? i then j else j - 1)) (others i n) d = j.
Proof.
  intros Hi Hj Hij. unfold others.
  pose proof (length_range 0 i) as L. unfold len in L.
  destruct (Z.ltb_spec j i).
  - rewrite app_nth1 by lia. rewrite nth_range; lia.
  - rewrite app_nth2 by lia. rewrite nth_range; lia.
Qed.

Lemma offset_surj (m : nat) (k : Z) :
  0 <= k < condensed_size (Z.of_nat m) ->
  exists i j, 0 <= j < i /\ i < Z.of_nat m /\ offset (Z.of_nat m) i j = k.
Proof.
  revert k. induction m as [|m IH]; intros k Hk.
  - cbn in Hk. lia.
  - rewrite Nat2Z.inj_succ, <- Z.add_1_r in *. rewrite condensed_size_succ in Hk.
    destruct (Z.lt_ge_cases k (Z.of_nat m)) as [L | G].
    + exists (k + 1), 0. rewrite offset_zero. lia.
    + destruct (IH (k - Z.of_nat m)) as (i & j & Hj & Hi & E); [lia|].
      exists (i + 1), (j + 1). rewrite offset_succ. lia.
Qed.

(** * The claims *)

(** C1 (the code departs from the claim): whenever the constructor followed by
    [fit] returns, the attribute [labels_] is still [None]; [fit] assigns no
    label sequence at all, of length n or otherwise. *)
Theorem fit_leaves_labels_unset (eps : float) (min_samples : Z)
    (data : list (list float)) (r : DBSCAN) :
  run eps min_samples data = Ok r -> labels_ r = None.
Proof.
  unfold run, __init__. cbn [bind]. intros H. apply fit_inv in H as [_ ->]. reflexivity.
Qed.

Lemma fit_leaves_labels_unset_two_clusters :
  exists r, run 1.5%float 3 get_two_clusters = Ok r /\ len get_two_clusters = 7 /\ labels_ r = None.
Proof.
  eexists. split; [vm_compute; reflexivity|]. split; [reflexivity|].
  eapply (fit_leaves_labels_unset 1.5%float 3 get_two_clusters). vm_compute. reflexivity.
Defined.

(** C2 (the code departs from the claim): on the seven points of the test
    fixture with eps = 1.5 and min_samples = 3, [fit] returns with
    core_sample_indices_ = [1, 4] and components_ = [[2, 2], [7, 7]], and with
    labels_ = None instead of [0, 0, 0, 1, 1, 1, -1]. *)
Theorem fit_two_clusters :
  run 1.5%float 3 get_two_clusters
  = Ok {| _eps := 1.5%float;
          _min_samples := 3;
          core_sample_indices_ := Some [1; 4];
          components_ := Some [[2; 2]; [7; 7]]%float;
          labels_ := None |}.
Proof. vm_compute. reflexivity. Qed.

(** C3: on the condensed table of any data, [_get_core_sample_indices] returns,
    and a point index [i] is in the returned sequence if and only if it is an
    index of the data and the number of points [j <> i] with
    [distance(i, j) < eps], plus 1, is at least [min_samples]. *)
Theorem core_sample_indices_iff (self : DBSCAN) (data : list (list float)) :
  exists core,
    _get_core_sample_indices self (len data) (scipy.pdist data) = Ok core /\
    forall i, In i core <->
      (0 <= i < len data /\ neighbor_count data (_eps self) i + 1 >= _min_samples self).
Proof.
  eexists. split; [apply get_core_sample_indices_ok, length_pdist|].
  intros i. rewrite filter_In, In_range. split.
  - intros [Hi Hc]. split; [exact Hi|].
    rewrite is_core_pdist in Hc by exact Hi. now apply Z.geb_le, Z.le_ge in Hc.
  - intros [Hi Hc]. split; [exact Hi|].
    rewrite is_core_pdist by exact Hi. apply Z.geb_le. lia.
Qed.

(** C4, as stated, fails: line 99 computes in binary64.  With n = 2^53 + 2
    the pair (2^53 + 1, 0) has formula value 2^53, but the function returns
    2^53 - 1, the float it also returns for the pair (2^53, 0). *)
Lemma square_to_condensed_rounds_large_indices :
  (0 <= 0 < 2 ^ 53 + 1 /\ 2 ^ 53 + 1 < 2 ^ 53 + 2) /\
  (2 ^ 53 + 2) * 0 - 0 * (0 + 1) / 2 + (2 ^ 53 + 1 - 0 - 1) = 9007199254740992 /\
  square_to_condensed_binary64 (2 ^ 53 + 1) 0 (2 ^ 53 + 2) = Ok 9007199254740991%float /\
  square_to_condensed_binary64 (2 ^ 53) 0 (2 ^ 53 + 2) = Ok 9007199254740991%float /\
  9007199254740991%float <> float_of_Z 9007199254740992.
Proof.
  split; [lia|]. split; [reflexivity|].
  split; [vm_compute; reflexivity|]. split; [vm_compute; reflexivity|].
  intros H. apply (f_equal (fun x => PrimFloat.eqb x 9007199254740991%float)) in H.
  vm_compute in H. discriminate H.
Qed.

(** C4, amended: for at most 94906265 points, where no intermediate value
    of line 99 reaches 2^53: for [0 <= j < i < n],
    [square_to_condensed(i, j, n)] returns the float of
    [n*j - j*(j+1)/2 + (i - j - 1)]; on the pairs of distinct indices below
    [n] the returned index lies in [0 .. n*(n-1)/2 - 1], two pairs get the
    same index only when they are the same unordered pair, and every index of
    that interval is the index of some pair. *)
Theorem square_to_condensed_bijection (n : Z) :
  0 <= n <= 94906265 ->
  (forall i j, 0 <= j < i -> i < n ->
     square_to_condensed_binary64 i j n
     = Ok (float_of_Z (n * j - j * (j + 1) / 2 + (i - j - 1)))) /\
  (forall i j, 0 <= i < n -> 0 <= j < n -> i <> j ->
     exists k, square_to_condensed_binary64 i j n = Ok (float_of_Z k) /\
               0 <= k <= n * (n - 1) / 2 - 1) /\
  (forall i j i' j', 0 <= i < n -> 0 <= j < n -> i <> j ->
     0 <= i' < n -> 0 <= j' < n -> i' <> j' ->
     square_to_condensed_binary64 i j n = square_to_condensed_binary64 i' j' n ->
     (i = i' /\ j = j') \/ (i = j' /\ j = i')) /\
  (forall k, 0 <= k <= n * (n - 1) / 2 - 1 ->
     exists i j, 0 <= j < i /\ i < n /\
                 square_to_condensed_binary64 i j n = Ok (float_of_Z k)).
Proof.
  intros Hn.
  assert (Hany : forall i j, 0 <= i < n -> 0 <= j < n -> i <> j ->
            square_to_condensed_binary64 i j n
            = Ok (float_of_Z (offset n (Z.max i j) (Z.min i j)))).
  { intros i j Hi Hj Hij. destruct (Z.lt_trichotomy i j) as [L | [E | L]]; [|lia|].
    - rewrite square_to_condensed_binary64_sym, Z.max_r, Z.min_l by lia.
      apply square_to_condensed_binary64_offset; lia.
    - rewrite Z.max_l, Z.min_r by lia.
      apply square_to_condensed_binary64_offset; lia. }
  assert (Hsize : condensed_size n < 2 ^ 53).
  { pose proof (condensed_size_exact n). change (2 ^ 53) with 9007199254740992. nia. }
  split; [|split; [|split]].
  - intros i j Hj Hi. rewrite square_to_condensed_binary64_offset by lia.
    unfold offset. do 2 f_equal. lia.
  - intros i j Hi Hj Hij. eexists. split; [now apply Hany|].
    pose proof (offset_bounds n (Z.max i j) (Z.min i j)). fold (condensed_size n). lia.
  - intros i j i' j' Hi Hj Hij Hi' Hj' Hij' E.
    rewrite !Hany in E by assumption. injection E as E.
    pose proof (offset_bounds n (Z.max i j) (Z.min i j)).
    pose proof (offset_bounds n (Z.max i' j') (Z.min i' j')).
    apply float_of_Z_inj in E; [|lia|lia].
    apply offset_inj in E; lia.
  - intros k Hk. fold (condensed_size n) in Hk.
    destruct (offset_surj (Z.to_nat n) k) as (i & j & Hj & Hi & E);
      rewrite ?Z2Nat.id in * by lia; [lia|].
    exists i, j. rewrite square_to_condensed_binary64_offset by lia. rewrite E. auto.
Qed.

Lemma square_to_condensed_bijection_seven :
  square_to_condensed_binary64 4 1 7 = Ok 8%float /\
  (exists i j, 0 <= j < i /\ i < 7 /\
               square_to_condensed_binary64 i j 7 = Ok (float_of_Z 20)).
Proof.
  destruct (square_to_condensed_bijection 7 ltac:(lia)) as (Hf & _ & _ & Hs).
  split.
  - rewrite (Hf 4 1) by lia. vm_compute. reflexivity.
  - apply Hs. vm_compute. split; discriminate.
Defined.

(** C5: for points [i <> j] of any data, the mask computed for [i] has one
    entry per other point; the entry of [j] is 1 when [distance(i, j) < eps]
    and 0 otherwise, in particular 0 when the distance equals [eps]; the
    count used by the core test is the number of nonzero entries plus 1, and
    that number is the number of points [j <> i] with [distance(i, j) < eps]. *)
Theorem neighborhood_is_strict (self : DBSCAN) (data : list (list float)) (i j : Z) :
  0 <= i < len data -> 0 <= j < len data -> i <> j ->
  exists mask,
    less_than_eps self i (len data) (scipy.pdist data) = Ok mask /\
    len mask = len data - 1 /\
    nth (Z.to_nat (if j <? i then j else j - 1)) mask 0
      = (if PrimFloat.ltb (distance data i j) (_eps self) then 1 else 0) /\
    (PrimFloat.eqb (distance data i j) (_eps self) = true ->
     nth (Z.to_nat (if j <? i then j else j - 1)) mask 0 = 0) /\
    num_less_than_eps self i (len data) (scipy.pdist data) = Ok (np.count_nonzero mask + 1) /\
    np.count_nonzero mask = neighbor_count data (_eps self) i.
Proof.
  intros Hi Hj Hij.
  pose proof (length_pdist data) as Hlen.
  set (f := fun j => if PrimFloat.ltb (cell (scipy.pdist data) (len data) i j) (_eps self)
                     then 1 else 0).
  assert (Hnth : nth (Z.to_nat (if j <? i then j else j - 1)) (map f (others i (len data))) 0
                 = (if PrimFloat.ltb (distance data i j) (_eps self) then 1 else 0)).
  { rewrite (nth_indep _ 0 (f 0)).
    - rewrite map_nth, nth_others by lia. unfold f. now rewrite cell_pdist by lia.
    - rewrite length_map. pose proof (length_others i (len data) Hi) as L.
      unfold len in *. destruct (Z.ltb_spec j i); lia. }
  exists (map f (others i (len data))). repeat split.
  - now apply less_than_eps_ok.
  - unfold len at 1. rewrite length_map. now apply length_others.
  - exact Hnth.
  - intros E. rewrite Hnth, (ltb_false_of_eqb _ _ E). reflexivity.
  - unfold num_less_than_eps. now rewrite less_than_eps_ok by assumption.
  - replace (map f (others i (len data)))
      with (np.where_ (np.less (map (cell (scipy.pdist data) (len data) i)
                                    (others i (len data))) (_eps self)) 1 0)
      by (unfold np.where_, np.less; now rewrite !map_map).
    rewrite count_nonzero_mask. unfold neighbor_count.
    rewrite filter_others by exact Hi. f_equal.
    apply filter_ext_in. intros k Hk. apply In_others in Hk; [|exact Hi].
    now rewrite cell_pdist by lia.
Qed.

Lemma neighborhood_is_strict_at_eps :
  exists mask,
    less_than_eps (mkDBSCAN 5%float 2 None None None) 0 (len three_points)
                  (scipy.pdist three_points) = Ok mask /\
    len mask = len three_points - 1 /\
    nth (Z.to_nat (if 1 <? 0 then 1 else 1 - 1)) mask 0
      = (if PrimFloat.ltb (distance three_points 0 1) 5%float then 1 else 0) /\
    (PrimFloat.eqb (distance three_points 0 1) 5%float = true ->
     nth (Z.to_nat (if 1 <? 0 then 1 else 1 - 1)) mask 0 = 0) /\
    num_less_than_eps (mkDBSCAN 5%float 2 None None None) 0 (len three_points)
                      (scipy.pdist three_points) = Ok (np.count_nonzero mask + 1) /\
    np.count_nonzero mask = neighbor_count three_points 5%float 0.
Proof.
  apply (neighborhood_is_strict (mkDBSCAN 5%float 2 None None None) three_points 0 1);
    vm_compute; intuition discriminate.
Defined.

(** The mask of the first of the three points: the point at distance 5 does
    not count, the point at distance 1 does. *)
Example less_than_eps_three_points :
  less_than_eps (mkDBSCAN 5%float 2 None None None) 0 3 (scipy.pdist three_points)
  = Ok [0; 1].
Proof. vm_compute. reflexivity. Qed.

(** C6, as stated, fails: with eps = -1 and min_samples = 0 the constructor
    raises nothing. *)
Lemma init_accepts_invalid_parameters :
  PrimFloat.leb (-1)%float 0%float = true /\ 0 < 1 /\
  ~ (exists e, __init__ (-1)%float 0 = Raise e).
Proof.
  split; [vm_compute; reflexivity|]. split; [lia|].
  intros [e H]. discriminate H.
Qed.

(** C6, amended: the constructor validates nothing; for every [eps] and
    [min_samples] it returns the instance that holds them unchanged, with the
    three result attributes [None]. *)
Theorem init_always_succeeds (eps : float) (min_samples : Z) :
  exists self,
    __init__ eps min_samples = Ok self /\
    _eps self = eps /\ _min_samples self = min_samples /\
    core_sample_indices_ self = None /\ components_ self = None /\ labels_ self = None.
Proof. eexists. repeat split. Qed.

(** C7, as stated, fails: [fit] on a single point, with min_samples = 1,
    returns a result. *)
Lemma fit_accepts_one_point :
  len [[1; 3]]%float < 2 /\
  run 1.5%float 1 [[1; 3]]%float
  = Ok {| _eps := 1.5%float;
          _min_samples := 1;
          core_sample_indices_ := Some [0];
          components_ := Some [[1; 3]]%float;
          labels_ := None |}.
Proof. split; [reflexivity|]. vm_compute. reflexivity. Qed.

(** C7, amended: [square_to_condensed(i, i, n)] fails, with the assertion
    error, for every [i] and [n]; [fit] does not check the number of points:
    on a single point, when [min_samples <= 1], it returns with that point as
    the only core sample. *)
Theorem diagonal_fails_and_one_point_fits :
  (forall i n, square_to_condensed i i n = Raise AssertionError) /\
  (forall self u, _min_samples self <= 1 ->
     fit self [u]
     = Ok {| _eps := _eps self;
             _min_samples := _min_samples self;
             core_sample_indices_ := Some [0];
             components_ := Some [u];
             labels_ := labels_ self |}).
Proof.
  split; [exact square_to_condensed_diag|].
  intros self u H.
  assert (E : is_core self (len [u]) (scipy.pdist [u]) 0 = true).
  { unfold is_core. cbn. apply Z.geb_le. lia. }
  rewrite fit_ok; change (range 0 (len [u])) with [0]; cbn [filter map]; rewrite E;
    [reflexivity|discriminate].
Qed.

Lemma diagonal_fails_and_one_point_fits_example :
  square_to_condensed 3 3 7 = Raise AssertionError /\
  fit (mkDBSCAN 0.5%float 1 None None None) [[1; 3]]%float
  = Ok (mkDBSCAN 0.5%float 1 (Some [0]) (Some [[1; 3]]%float) None).
Proof.
  split.
  - apply (proj1 diagonal_fails_and_one_point_fits).
  - apply (proj2 diagonal_fails_and_one_point_fits (mkDBSCAN 0.5%float 1 None None None)).
    cbn. lia.
Defined.

(** C8: for all integers, [square_to_condensed(i, j, n)] and
    [square_to_condensed(j, i, n)] are the same computation and give the same
    index; for distinct indices below [n <= 94906265] that index is an index
    of the condensed table, so that taking the distance in either order reads
    the same cell of the table, and succeeds. *)
Theorem square_to_condensed_symmetric :
  (forall i j n,
     square_to_condensed_binary64 i j n = square_to_condensed_binary64 j i n) /\
  (forall i j n, 0 <= i < n -> 0 <= j < n -> i <> j -> n <= 94906265 ->
     exists k,
       square_to_condensed_binary64 i j n = Ok (float_of_Z k) /\
       square_to_condensed_binary64 j i n = Ok (float_of_Z k) /\
       0 <= k < condensed_size n /\
       forall distance_matrix : list float,
         len distance_matrix = condensed_size n ->
         exists d, np.take1 distance_matrix k = Ok d).
Proof.
  split; [exact square_to_condensed_binary64_sym|].
  intros i j n Hi Hj Hij Hn.
  pose proof (offset_bounds n (Z.max i j) (Z.min i j)) as Hb.
  assert (E : square_to_condensed_binary64 (Z.max i j) (Z.min i j) n
              = Ok (float_of_Z (offset n (Z.max i j) (Z.min i j))))
    by (apply square_to_condensed_binary64_offset; lia).
  exists (offset n (Z.max i j) (Z.min i j)).
  set (k := offset n (Z.max i j) (Z.min i j)) in *.
  split; [|split; [|split]].
  - destruct (Z.lt_trichotomy i j) as [L | [L | L]]; [|lia|].
    + rewrite square_to_condensed_binary64_sym. now rewrite Z.max_r, Z.min_l in E by lia.
    + now rewrite Z.max_l, Z.min_r in E by lia.
  - destruct (Z.lt_trichotomy i j) as [L | [L | L]]; [|lia|].
    + now rewrite Z.max_r, Z.min_l in E by lia.
    + rewrite square_to_condensed_binary64_sym. now rewrite Z.max_l, Z.min_r in E by lia.
  - lia.
  - intros dm Hlen. exists (nth (Z.to_nat k) dm nan). apply take1_ok. lia.
Qed.

Lemma square_to_condensed_symmetric_seven :
  square_to_condensed_binary64 2 5 7 = square_to_condensed_binary64 5 2 7 /\
  exists k,
    square_to_condensed_binary64 2 5 7 = Ok (float_of_Z k) /\
    square_to_condensed_binary64 5 2 7 = Ok (float_of_Z k) /\
    0 <= k < condensed_size 7 /\
    forall distance_matrix : list float,
      len distance_matrix = condensed_size 7 ->
      exists d, np.take1 distance_matrix k = Ok d.
Proof.
  split.
  - apply (proj1 square_to_condensed_symmetric).
  - apply (proj2 square_to_condensed_symmetric 2 5 7); lia.
Defined.

(** C9 (the code departs from the claim): when no point is a core sample,
    [fit] does not return.  Line 45 assigns the empty sequence to
    [core_sample_indices_]; line 46 then raises TypeError, since the empty
    index array is a float64 array, and [components_] keeps the value it had
    before the call instead of becoming the empty sequence. *)
Theorem fit_raises_without_core_sample (self : DBSCAN) (data : list (list float)) :
  _get_core_sample_indices self (len data) (scipy.pdist data) = Ok [] ->
  fit self data = Raise TypeError /\
  fit_on self data
  = ({| _eps := _eps self;
        _min_samples := _min_samples self;
        core_sample_indices_ := Some [];
        components_ := components_ self;
        labels_ := labels_ self |}, Some TypeError).
Proof.
  rewrite get_core_sample_indices_ok by apply length_pdist. intros [= E].
  unfold fit. rewrite fit_on_ok, E. split; reflexivity.
Qed.

Lemma fit_raises_without_core_sample_three_points :
  fit (mkDBSCAN 0.5%float 2 None None None) three_points = Raise TypeError /\
  fit_on (mkDBSCAN 0.5%float 2 None None None) three_points
  = (mkDBSCAN 0.5%float 2 (Some []) None None, Some TypeError).
Proof.
  apply (fit_raises_without_core_sample (mkDBSCAN 0.5%float 2 None None None) three_points).
  vm_compute. reflexivity.
Defined.

(** C10: for an index [i] below [n] and a condensed table of [n] points,
    [get_distances_from_other_points(i, n, distance_matrix)] returns [n - 1]
    values, the cells of the pairs of [i] with 0, ..., i-1 and then with
    i+1, ..., n-1; on the table [pdist] builds from data these are the
    distances from point [i] to the other points in ascending order. *)
Theorem get_distances_from_other_points_spec (i n : Z) (distance_matrix : list float) :
  0 <= i < n -> len distance_matrix = condensed_size n ->
  exists distances,
    get_distances_from_other_points i n distance_matrix = Ok distances /\
    len distances = n - 1 /\
    distances = map (cell distance_matrix n i) (range 0 i ++ range (i + 1) n) /\
    forall data, distance_matrix = scipy.pdist data -> n = len data ->
      distances = map (distance data i) (range 0 i ++ range (i + 1) n).
Proof.
  intros Hi Hlen. exists (map (cell distance_matrix n i) (others i n)). repeat split.
  - now apply get_distances_ok.
  - unfold len. rewrite length_map. now apply length_others.
  - intros data -> ->. apply map_ext_in. intros j Hj.
    apply In_others in Hj; [|exact Hi]. now apply cell_pdist.
Qed.

Lemma get_distances_from_other_points_two_clusters :
  exists distances,
    get_distances_from_other_points 1 7 (scipy.pdist get_two_clusters) = Ok distances /\
    len distances = 7 - 1 /\
    distances = map (cell (scipy.pdist get_two_clusters) 7 1) (range 0 1 ++ range (1 + 1) 7) /\
    forall data, scipy.pdist get_two_clusters = scipy.pdist data -> 7 = len data ->
      distances = map (distance data 1) (range 0 1 ++ range (1 + 1) 7).
Proof.
  apply (get_distances_from_other_points_spec 1 7 (scipy.pdist get_two_clusters)).
  - lia.
  - vm_compute. reflexivity.
Defined.

(** The distances from the first point of the fixture; in decimal 1.4142135...,
    2.8284271..., 7.0710678..., 7.2111025..., 7.6157731... and 5, the values
    the test suite expects to seven decimals. *)
Example distances_from_point_zero :
  get_distances_from_other_points 0 7 (scipy.pdist get_two_clusters)
  = Ok [0x1.6a09e667f3bcdp+0; 0x1.6a09e667f3bcdp+1; 0x1.c48c6001f0acp+2;
        0x1.cd82b446159f3p+2; 0x1.e768d399dc47p+2; 5]%float.
Proof. vm_compute. reflexivity. Qed.

(** * Further properties of the module *)

(** ** Helpers *)

Lemma filter_all (p : Z -> bool) (l : list Z) :
  (forall x, In x l -> p x = true) -> filter p l = l.
Proof.
  induction l as [|x l IH]; intros H; cbn; [reflexivity|].
  rewrite (H x) by now left. f_equal. apply IH. intros y Hy. apply H. now right.
Qed.

Lemma filter_none (p : Z -> bool) (l : list Z) :
  (forall x, In x l -> p x = false) -> filter p l = [].
Proof.
  induction l as [|x l IH]; intros H; cbn; [reflexivity|].
  rewrite (H x) by now left. apply IH. intros y Hy. apply H. now right.
Qed.

Lemma map_row_range (data : list (list float)) :
  map (row data) (range 0 (len data)) = data.
Proof.
  unfold range, row, len. rewrite Z.sub_0_r, Nat2Z.id, map_map.
  rewrite (map_ext _ (fun k => nth k data [])) by (intros k; now rewrite Z.add_0_l, Nat2Z.id).
  induction data as [|u rest IH]; [reflexivity|].
  cbn [length seq map nth]. f_equal.
  rewrite <- seq_shift, map_map. exact IH.
Qed.

(** The number of neighbours counted for a point lies between 0 and [n - 1]. *)
Lemma neighbours_bounds (self : DBSCAN) (n : Z) (distance_matrix : list float) (i : Z) :
  0 <= i < n ->
  0 <= len (filter (fun j => PrimFloat.ltb (cell distance_matrix n i j) (_eps self))
                   (others i n)) <= n - 1.
Proof.
  intros Hi. pose proof (length_others i n Hi) as L.
  pose proof (filter_length_le
                (fun j => PrimFloat.ltb (cell distance_matrix n i j) (_eps self))
                (others i n)) as F.
  unfold len in *. lia.
Qed.

(** ** The count of a point and the extreme values of [min_samples] *)

(** X1: on a table of the right size the count [num_less_than_eps] of a point
    [i] below [n] is computed, and lies between 1 (the point itself) and [n]. *)
Theorem num_less_than_eps_bounds (self : DBSCAN) (i n : Z) (distance_matrix : list float) :
  0 <= i < n -> len distance_matrix = condensed_size n ->
  exists num, num_less_than_eps self i n distance_matrix = Ok num /\ 1 <= num <= n.
Proof.
  intros Hi Hlen. eexists. split; [now apply num_less_than_eps_ok|].
  pose proof (neighbours_bounds self n distance_matrix i Hi). lia.
Qed.

Lemma num_less_than_eps_bounds_two_clusters :
  exists num,
    num_less_than_eps (mkDBSCAN 1.5%float 3 None None None) 1 7 (scipy.pdist get_two_clusters)
    = Ok num /\ 1 <= num <= 7.
Proof.
  apply (num_less_than_eps_bounds (mkDBSCAN 1.5%float 3 None None None) 1 7
           (scipy.pdist get_two_clusters)).
  - lia.
  - vm_compute. reflexivity.
Defined.

(** X2: with [min_samples <= 1] every point of a nonempty data set is a core
    sample: [fit] returns with core_sample_indices_ = [0, ..., n-1] and with
    components_ equal to the data, row for row. *)
Theorem fit_min_samples_one_all_core (self : DBSCAN) (data : list (list float)) :
  _min_samples self <= 1 -> 1 <= len data ->
  fit self data
  = Ok {| _eps := _eps self;
          _min_samples := _min_samples self;
          core_sample_indices_ := Some (range 0 (len data));
          components_ := Some data;
          labels_ := labels_ self |}.
Proof.
  intros Hms Hn.
  assert (Hall : filter (is_core self (len data) (scipy.pdist data)) (range 0 (len data))
                 = range 0 (len data)); [|rewrite fit_ok; rewrite Hall].
  2: now rewrite map_row_range.
  2: rewrite (range_cons 0 (len data)) by lia; discriminate.
  apply filter_all.
  - intros i Hi. apply In_range in Hi. unfold is_core. apply Z.geb_le.
    pose proof (neighbours_bounds self (len data) (scipy.pdist data) i Hi). lia.
Qed.

Lemma fit_min_samples_one_all_core_three_points :
  fit (mkDBSCAN 0.5%float 1 None None None) three_points
  = Ok {| _eps := 0.5%float;
          _min_samples := 1;
          core_sample_indices_ := Some (range 0 (len three_points));
          components_ := Some three_points;
          labels_ := None |}.
Proof.
  apply (fit_min_samples_one_all_core (mkDBSCAN 0.5%float 1 None None None) three_points).
  - cbn. lia.
  - vm_compute. discriminate.
Defined.

(** X3: with [min_samples] larger than the number of points no point is a
    core sample, whatever [eps] is: [_get_core_sample_indices] returns the
    empty sequence. *)
Theorem no_core_sample_when_min_samples_exceeds_n (self : DBSCAN) (data : list (list float)) :
  len data < _min_samples self ->
  _get_core_sample_indices self (len data) (scipy.pdist data) = Ok [].
Proof.
  intros Hms. rewrite get_core_sample_indices_ok by apply length_pdist.
  rewrite filter_none; [reflexivity|].
  intros i Hi. apply In_range in Hi. unfold is_core.
  pose proof (neighbours_bounds self (len data) (scipy.pdist data) i Hi).
  destruct (Z.geb_spec
    (len (filter (fun j => PrimFloat.ltb (cell (scipy.pdist data) (len data) i j) (_eps self))
                 (others i (len data))) + 1) (_min_samples self)); [lia|reflexivity].
Qed.

Lemma no_core_sample_when_min_samples_exceeds_n_two_clusters :
  _get_core_sample_indices (mkDBSCAN 100%float 8 None None None)
    (len get_two_clusters) (scipy.pdist get_two_clusters) = Ok [].
Proof.
  apply (no_core_sample_when_min_samples_exceeds_n
           (mkDBSCAN 100%float 8 None None None) get_two_clusters).
  vm_compute. reflexivity.
Defined.

(** X4: raising [min_samples] at the same [eps] can only remove core samples:
    every index returned for the larger [min_samples] is returned for the
    smaller one. *)
Theorem core_samples_shrink_with_min_samples
    (self self' : DBSCAN) (n : Z) (distance_matrix : list float) :
  _eps self = _eps self' -> _min_samples self <= _min_samples self' ->
  len distance_matrix = condensed_size n ->
  exists core core',
    _get_core_sample_indices self n distance_matrix = Ok core /\
    _get_core_sample_indices self' n distance_matrix = Ok core' /\
    incl core' core.
Proof.
  intros He Hms Hlen. do 2 eexists.
  split; [now apply get_core_sample_indices_ok|].
  split; [now apply get_core_sample_indices_ok|].
  intros i Hi. apply filter_In in Hi as [Hr Hc]. apply filter_In. split; [exact Hr|].
  unfold is_core in *. rewrite He. apply Z.geb_le. apply Z.geb_le in Hc. lia.
Qed.

Lemma core_samples_shrink_with_min_samples_two_clusters :
  exists core core',
    _get_core_sample_indices (mkDBSCAN 1.5%float 2 None None None) 7
      (scipy.pdist get_two_clusters) = Ok core /\
    _get_core_sample_indices (mkDBSCAN 1.5%float 3 None None None) 7
      (scipy.pdist get_two_clusters) = Ok core' /\
    incl core' core.
Proof.
  apply (core_samples_shrink_with_min_samples
           (mkDBSCAN 1.5%float 2 None None None) (mkDBSCAN 1.5%float 3 None None None) 7
           (scipy.pdist get_two_clusters)).
  - reflexivity.
  - cbn. lia.
  - vm_compute. reflexivity.
Defined.

(** ** The neighbourhood relation *)

Lemma cell_sym (distance_matrix : list float) (n i j : Z) :
  cell distance_matrix n i j = cell distance_matrix n j i.
Proof. unfold cell. now rewrite Z.max_comm, Z.min_comm. Qed.

(** The entry of point [j] in the mask computed for point [i]. *)
Lemma mask_entry (self : DBSCAN) (n : Z) (distance_matrix : list float) (i j : Z) :
  0 <= i < n -> 0 <= j < n -> i <> j -> len distance_matrix = condensed_size n ->
  exists mask,
    less_than_eps self i n distance_matrix = Ok mask /\
    nth (Z.to_nat (if j <? i then j else j - 1)) mask 0
    = (if PrimFloat.ltb (cell distance_matrix n i j) (_eps self) then 1 else 0).
Proof.
  intros Hi Hj Hij Hlen. eexists. split; [now apply less_than_eps_ok|].
  set (f := fun j => if PrimFloat.ltb (cell distance_matrix n i j) (_eps self) then 1 else 0).
  rewrite (nth_indep _ 0 (f 0)).
  - now rewrite map_nth, nth_others by lia.
  - rewrite length_map. pose proof (length_others i n Hi) as L.
    unfold len in L. destruct (Z.ltb_spec j i); lia.
Qed.

(** X5: being a neighbour is symmetric: on a table of the right size, the
    entry of [j] in the mask of [i] equals the entry of [i] in the mask of
    [j], so [j] counts for [i] exactly when [i] counts for [j]. *)
Theorem neighbour_mask_symmetric (self : DBSCAN) (n : Z) (distance_matrix : list float)
    (i j : Z) :
  0 <= i < n -> 0 <= j < n -> i <> j -> len distance_matrix = condensed_size n ->
  exists mask_i mask_j,
    less_than_eps self i n distance_matrix = Ok mask_i /\
    less_than_eps self j n distance_matrix = Ok mask_j /\
    nth (Z.to_nat (if j <? i then j else j - 1)) mask_i 0
    = nth (Z.to_nat (if i <? j then i else i - 1)) mask_j 0.
Proof.
  intros Hi Hj Hij Hlen.
  destruct (mask_entry self n distance_matrix i j) as (mi & Ei & Ni); try assumption.
  destruct (mask_entry self n distance_matrix j i) as (mj & Ej & Nj); try assumption; [lia|].
  exists mi, mj. split; [exact Ei|]. split; [exact Ej|].
  now rewrite Ni, Nj, cell_sym.
Qed.

Lemma neighbour_mask_symmetric_two_clusters :
  exists mask_i mask_j,
    less_than_eps (mkDBSCAN 1.5%float 3 None None None) 1 7 (scipy.pdist get_two_clusters)
    = Ok mask_i /\
    less_than_eps (mkDBSCAN 1.5%float 3 None None None) 2 7 (scipy.pdist get_two_clusters)
    = Ok mask_j /\
    nth (Z.to_nat (if 2 <? 1 then 2 else 2 - 1)) mask_i 0
    = nth (Z.to_nat (if 1 <? 2 then 1 else 1 - 1)) mask_j 0.
Proof.
  apply (neighbour_mask_symmetric (mkDBSCAN 1.5%float 3 None None None) 7
           (scipy.pdist get_two_clusters) 1 2); try lia.
  vm_compute. reflexivity.
Defined.

(** ** The order of the condensed indices *)

(** X6: for at most 94906265 points, [square_to_condensed] follows the
    row-major order of the condensed table: for pairs [j < i] and [j' < i'] of
    indices below [n], the index of the first pair is smaller exactly when
    [j < j'], or [j = j'] and [i < i']. *)
Theorem square_to_condensed_row_major (n i j i' j' : Z) :
  n <= 94906265 -> 0 <= j < i -> i < n -> 0 <= j' < i' -> i' < n ->
  exists k k',
    square_to_condensed_binary64 i j n = Ok (float_of_Z k) /\
    square_to_condensed_binary64 i' j' n = Ok (float_of_Z k') /\
    (k < k' <-> j < j' \/ (j = j' /\ i < i')).
Proof.
  intros Hn Hj Hi Hj' Hi'. exists (offset n i j), (offset n i' j').
  rewrite !square_to_condensed_binary64_offset by lia.
  split; [reflexivity|]. split; [reflexivity|].
  destruct (Z.lt_trichotomy j j') as [L | [-> | L]].
  - pose proof (offset_row_lt n i j i' j'). lia.
  - unfold offset. lia.
  - pose proof (offset_row_lt n i' j' i j). lia.
Qed.

Lemma square_to_condensed_row_major_seven :
  exists k k',
    square_to_condensed_binary64 6 1 7 = Ok (float_of_Z k) /\
    square_to_condensed_binary64 3 2 7 = Ok (float_of_Z k') /\
    (k < k' <-> 1 < 2 \/ (1 = 2 /\ 6 < 3)).
Proof. apply (square_to_condensed_row_major 7 6 1 3 2); lia. Defined.

(** X7: the first and the last cell: among [n] points, [2 <= n <= 94906265],
    the pair (1, 0) has index 0 and the pair (n-1, n-2) has the last index
    n*(n-1)/2 - 1. *)
Theorem square_to_condensed_first_last (n : Z) :
  2 <= n <= 94906265 ->
  square_to_condensed_binary64 1 0 n = Ok (float_of_Z 0) /\
  square_to_condensed_binary64 (n - 1) (n - 2) n = Ok (float_of_Z (n * (n - 1) / 2 - 1)).
Proof.
  intros Hn. rewrite !square_to_condensed_binary64_offset by lia. split.
  - now rewrite offset_zero.
  - do 2 f_equal. fold (condensed_size n).
    pose proof (offset_double n (n - 1) (n - 2)). pose proof (condensed_size_exact n). nia.
Qed.

Lemma square_to_condensed_first_last_seven :
  square_to_condensed_binary64 1 0 7 = Ok (float_of_Z 0) /\
  square_to_condensed_binary64 (7 - 1) (7 - 2) 7 = Ok (float_of_Z (7 * (7 - 1) / 2 - 1)).
Proof. apply (square_to_condensed_first_last 7). lia. Defined.

(** ** Indices out of range *)

Lemma take1_raises_IndexError {A : Type} (a : list A) (k : Z) (e : exn) :
  np.take1 a k = Raise e -> e = IndexError.
Proof.
  unfold np.take1. destruct ((k <? - len a) || (len a <=? k)); [congruence|].
  destruct (nth_error a _); congruence.
Qed.

Lemma take1_out_of_bounds {A : Type} (a : list A) (k : Z) :
  len a <= k -> np.take1 a k = Raise IndexError.
Proof.
  intros H. unfold np.take1.
  destruct (Z.leb_spec (len a) k); [|lia]. now rewrite orb_true_r.
Qed.

Lemma take1_negative {A : Type} (a : list A) (k : Z) (d : A) :
  - len a <= k < 0 -> np.take1 a k = Ok (nth (Z.to_nat (k + len a)) a d).
Proof.
  intros H. unfold np.take1.
  destruct (Z.ltb_spec k (- len a)); [lia|].
  destruct (Z.leb_spec (len a) k); [lia|]. cbn [orb].
  destruct (Z.ltb_spec k 0); [|lia].
  destruct (nth_error a (Z.to_nat (k + len a))) eqn:E.
  - now rewrite (nth_error_nth _ _ _ E).
  - apply nth_error_None in E. unfold len in *. lia.
Qed.

Lemma mapM_raise_inv {A B : Type} (f : A -> result B) (l : list A) (e : exn) :
  mapM f l = Raise e -> exists x, In x l /\ f x = Raise e.
Proof.
  induction l as [|x l IH]; cbn; [discriminate|].
  destruct (f x) as [y|e'] eqn:E; cbn.
  - destruct (mapM f l) as [ys|e''] eqn:E'; cbn; [discriminate|].
    intros [= ->]. destruct (IH eq_refl) as (z & Hz & Ez). exists z. auto.
  - intros [= ->]. exists x. auto.
Qed.

Lemma mapM_ok_inv {A B : Type} (f : A -> result B) (l : list A) (ys : list B) :
  mapM f l = Ok ys -> forall x, In x l -> exists y, f x = Ok y.
Proof.
  revert ys. induction l as [|x l IH]; cbn; intros ys H z Hz; [contradiction|].
  destruct (f x) as [y|e] eqn:E; cbn in H; [|discriminate].
  destruct (mapM f l) as [ys'|e] eqn:E'; cbn in H; [|discriminate].
  destruct Hz as [<- | Hz]; [eauto|]. eapply IH; eauto.
Qed.

Lemma combine_repeat_firstn {A B : Type} (x : A) (l : list B) (k : nat) :
  combine (repeat x k) l = map (pair x) (firstn k l).
Proof.
  revert l. induction k as [|k IH]; intros l; [reflexivity|].
  destruct l as [|y l]; [reflexivity|]. cbn. f_equal. apply IH.
Qed.

Lemma range_app (a m b : Z) : a <= m <= b -> range a b = range a m ++ range m b.
Proof.
  intros H. destruct (Z.eq_dec m b) as [-> | Hne].
  - now rewrite (range_nil b b), app_nil_r by lia.
  - rewrite (range_split a m b) by lia. now rewrite (range_cons m b) by lia.
Qed.

Lemma firstn_length_app {A : Type} (l l' : list A) : firstn (length l) (l ++ l') = l.
Proof. induction l as [|x l IH]; cbn; [now destruct l'|]. now rewrite IH. Qed.

Lemma firstn_range (n i : Z) : 0 <= n <= i -> firstn (Z.to_nat n) (range 0 i) = range 0 n.
Proof.
  intros H. rewrite (range_app 0 n i) by lia.
  replace (Z.to_nat n) with (length (range 0 n)).
  - apply firstn_length_app.
  - pose proof (length_range 0 n). unfold len in *. lia.
Qed.

(** The pairs [get_distances_from_other_points] builds never lie on the
    diagonal, so the list comprehension over them does not raise. *)
Lemma condensed_indices_ok (i n : Z) :
  mapM (fun square_index => square_to_condensed (fst square_index) (snd square_index) n)
       (zip (repeat_n i n) (chain (range 0 i) (range (i + 1) n)))
  = Ok (map (fun p => offset n (Z.max (fst p) (snd p)) (Z.min (fst p) (snd p)))
            (zip (repeat_n i n) (chain (range 0 i) (range (i + 1) n)))).
Proof.
  apply mapM_ok. intros [a b] Hp. unfold zip, repeat_n, chain in Hp.
  pose proof (in_combine_l _ _ _ _ Hp) as Ha. apply repeat_spec in Ha. subst a.
  pose proof (in_combine_r _ _ _ _ Hp) as Hb.
  rewrite in_app_iff, !In_range in Hb. cbn [fst snd].
  destruct (Z.lt_trichotomy i b) as [L | [E | L]]; [|lia|].
  - rewrite square_to_condensed_lt by exact L. now rewrite Z.max_r, Z.min_l by lia.
  - rewrite square_to_condensed_gt by exact L. now rewrite Z.max_l, Z.min_r by lia.
Qed.

(** X8: for an index and a number of points of magnitude at most 2^25,
    and any table, [get_distances_from_other_points] never trips the
    assertion of [square_to_condensed]: no pair it builds lies on the
    diagonal, line 99 gives the exact index of each pair without rounding or
    overflow, and the only exception the call can raise is the IndexError of
    [take]. *)
Theorem get_distances_never_queries_diagonal (i n : Z) (distance_matrix : list float) :
  Z.abs i <= 33554432 -> Z.abs n <= 33554432 ->
  (forall square_index,
     In square_index (zip (repeat_n i n) (chain (range 0 i) (range (i + 1) n))) ->
     fst square_index <> snd square_index /\
     exists k,
       square_to_condensed (fst square_index) (snd square_index) n = Ok k /\
       square_to_condensed_binary64 (fst square_index) (snd square_index) n
       = Ok (float_of_Z k)) /\
  ((exists distances, get_distances_from_other_points i n distance_matrix = Ok distances) \/
   get_distances_from_other_points i n distance_matrix = Raise IndexError).
Proof.
  intros Hi Hn. split.
  - intros [a b] Hp. unfold zip, repeat_n, chain in Hp.
    pose proof (in_combine_l _ _ _ _ Hp) as Ha. apply repeat_spec in Ha. subst a.
    pose proof (in_combine_r _ _ _ _ Hp) as Hb.
    rewrite in_app_iff, !In_range in Hb. cbn [fst snd].
    split; [lia|].
    rewrite square_to_condensed_binary64_exact by lia.
    destruct (square_to_condensed i b n) as [k|e] eqn:E.
    + exists k. split; reflexivity.
    + exfalso. unfold square_to_condensed in E.
      destruct (Z.eqb_spec i b); [lia|]. destruct (i <? b); discriminate E.
  - unfold get_distances_from_other_points. rewrite condensed_indices_ok. cbn [bind].
    destruct (np.take distance_matrix _) as [ds|e] eqn:E; [eauto|].
    right. apply mapM_raise_inv in E as (k & _ & Ek).
    now rewrite (take1_raises_IndexError _ _ _ Ek).
Qed.

Lemma get_distances_never_queries_diagonal_two_clusters :
  (forall square_index,
     In square_index (zip (repeat_n 9 7) (chain (range 0 9) (range (9 + 1) 7))) ->
     fst square_index <> snd square_index /\
     exists k,
       square_to_condensed (fst square_index) (snd square_index) 7 = Ok k /\
       square_to_condensed_binary64 (fst square_index) (snd square_index) 7
       = Ok (float_of_Z k)) /\
  ((exists distances,
      get_distances_from_other_points 9 7 (scipy.pdist get_two_clusters) = Ok distances) \/
   get_distances_from_other_points 9 7 (scipy.pdist get_two_clusters) = Raise IndexError).
Proof.
  apply (get_distances_never_queries_diagonal 9 7 (scipy.pdist get_two_clusters));
    cbn; lia.
Defined.

(** X9: a point index at or beyond [n] is refused: for [n >= 1], an index
    [i >= n] of magnitude at most 2^25 and a table of the right size, line 99
    gives for the pair (i, n-1) an index beyond the table, and
    [get_distances_from_other_points] raises IndexError. *)
Theorem get_distances_index_too_large (i n : Z) (distance_matrix : list float) :
  1 <= n -> n <= i -> i <= 33554432 -> len distance_matrix = condensed_size n ->
  (exists k, square_to_condensed_binary64 i (n - 1) n = Ok (float_of_Z k) /\
             condensed_size n <= k) /\
  get_distances_from_other_points i n distance_matrix = Raise IndexError.
Proof.
  intros Hn Hi Hbound Hlen.
  assert (Hk : condensed_size n <= offset n i (n - 1)).
  { pose proof (offset_double n i (n - 1)). pose proof (condensed_size_exact n). nia. }
  split.
  { exists (offset n i (n - 1)). split; [|exact Hk].
    rewrite square_to_condensed_binary64_exact by lia.
    now rewrite square_to_condensed_gt by lia. }
  unfold get_distances_from_other_points. rewrite condensed_indices_ok. cbn [bind].
  destruct (np.take distance_matrix _) as [ds|e] eqn:E.
  - exfalso. unfold np.take in E.
    destruct (mapM_ok_inv _ _ _ E (offset n i (n - 1))) as [d Hd].
    + unfold zip, repeat_n, chain.
      rewrite (range_nil (i + 1) n), app_nil_r, combine_repeat_firstn, firstn_range by lia.
      rewrite map_map. apply in_map_iff. exists (n - 1). cbn [fst snd].
      rewrite Z.max_l, Z.min_r by lia. split; [reflexivity|]. apply In_range. lia.
    + rewrite take1_out_of_bounds in Hd; [discriminate|]. now rewrite Hlen.
  - apply mapM_raise_inv in E as (k & _ & Ek).
    now rewrite (take1_raises_IndexError _ _ _ Ek).
Qed.

Lemma get_distances_index_too_large_seven :
  (exists k, square_to_condensed_binary64 7 (7 - 1) 7 = Ok (float_of_Z k) /\
             condensed_size 7 <= k) /\
  get_distances_from_other_points 7 7 (scipy.pdist get_two_clusters) = Raise IndexError.
Proof.
  apply (get_distances_index_too_large 7 7 (scipy.pdist get_two_clusters)); try lia.
  vm_compute. reflexivity.
Defined.

Lemma skipn_seq {A : Type} (l : list A) (m : nat) (d : A) :
  skipn m l = map (fun k => nth (m + k)%nat l d) (seq 0 (length l - m)).
Proof.
  revert m. induction l as [|x l IH]; intros m; [now destruct m|].
  destruct m as [|m].
  - cbn [skipn length Nat.sub seq map nth Nat.add]. f_equal.
    rewrite <- seq_shift, map_map. cbn [nth].
    rewrite (IH 0%nat) at 1. cbn [skipn Nat.add]. now rewrite Nat.sub_0_r.
  - cbn [skipn length Nat.sub]. rewrite (IH m). reflexivity.
Qed.

(** X10: the index -1 is not read as the last point.  For [n >= 3] and a
    table of the right size, [get_distances_from_other_points(-1, n, ...)]
    raises nothing and returns [n] values, the last [n] cells of the table. *)
Theorem get_distances_minus_one (n : Z) (distance_matrix : list float) :
  3 <= n -> len distance_matrix = condensed_size n ->
  get_distances_from_other_points (-1) n distance_matrix
  = Ok (skipn (Z.to_nat (condensed_size n - n)) distance_matrix) /\
  len (skipn (Z.to_nat (condensed_size n - n)) distance_matrix) = n.
Proof.
  intros Hn Hlen.
  assert (Hsz : n <= condensed_size n) by (pose proof (condensed_size_exact n); nia).
  assert (Hl : len (skipn (Z.to_nat (condensed_size n - n)) distance_matrix) = n).
  { unfold len in *. rewrite length_skipn. lia. }
  assert (Hoff : forall j, 0 <= j -> offset n (Z.max (-1) j) (Z.min (-1) j) = j - n).
  { intros j Hj. rewrite Z.max_r, Z.min_l by lia.
    unfold offset. change (-1 * (-1 + 1) / 2) with 0. lia. }
  split; [|exact Hl].
  unfold get_distances_from_other_points. rewrite condensed_indices_ok. cbn [bind].
  unfold zip, repeat_n, chain.
  rewrite (range_nil 0 (-1)) by lia. cbn [app]. change (-1 + 1) with 0.
  rewrite combine_repeat
    by (pose proof (length_range 0 n); unfold len in *; lia).
  rewrite map_map. cbn [fst snd].
  unfold np.take.
  rewrite (mapM_ok _ (fun k => nth (Z.to_nat (k + len distance_matrix)) distance_matrix nan)).
  - f_equal. rewrite map_map, (skipn_seq _ _ nan). unfold range. rewrite map_map.
    replace (length distance_matrix - Z.to_nat (condensed_size n - n))%nat
      with (Z.to_nat (n - 0)) by (unfold len in *; lia).
    apply map_ext. intros k. rewrite Hoff by lia. f_equal. unfold len in *. lia.
  - intros k Hk. apply in_map_iff in Hk as (j & <- & Hj). apply In_range in Hj.
    rewrite Hoff by lia. apply take1_negative. lia.
Qed.

Lemma get_distances_minus_one_seven :
  get_distances_from_other_points (-1) 7 (scipy.pdist get_two_clusters)
  = Ok (skipn (Z.to_nat (condensed_size 7 - 7)) (scipy.pdist get_two_clusters)) /\
  len (skipn (Z.to_nat (condensed_size 7 - 7)) (scipy.pdist get_two_clusters)) = 7.
Proof.
  apply (get_distances_minus_one 7 (scipy.pdist get_two_clusters)); [lia|].
  vm_compute. reflexivity.
Defined.

(** ** Empty problems, the result of [fit] and an undefined radius *)

(** X11: with [n <= 0], [n] in the range of a C [ssize_t], nothing is read:
    whatever the index and the table, [get_distances_from_other_points]
    returns the empty sequence, and [_get_core_sample_indices] returns no
    core sample. *)
Theorem nothing_to_do_without_points (self : DBSCAN) (i n : Z) (distance_matrix : list float) :
  - 9223372036854775808 <= n -> n <= 0 ->
  get_distances_from_other_points i n distance_matrix = Ok [] /\
  _get_core_sample_indices self n distance_matrix = Ok [].
Proof.
  intros _ Hn. split.
  - unfold get_distances_from_other_points, zip, repeat_n.
    replace (Z.to_nat n) with 0%nat by lia. reflexivity.
  - unfold _get_core_sample_indices. now rewrite range_nil by lia.
Qed.

Lemma nothing_to_do_without_points_example :
  get_distances_from_other_points 3 0 [] = Ok [] /\
  _get_core_sample_indices (mkDBSCAN 0.5%float 5 None None None) 0 [] = Ok [].
Proof.
  apply (nothing_to_do_without_points (mkDBSCAN 0.5%float 5 None None None) 3 0 []); lia.
Defined.

(** X12: whenever [fit] returns, [core_sample_indices_] is set to a strictly
    ascending sequence, without duplicates, of indices of the data, and
    [components_] is set to the rows of the data at these indices, one per
    index and in the same order. *)
Theorem fit_core_samples_ascending (self : DBSCAN) (data : list (list float)) (r : DBSCAN) :
  fit self data = Ok r ->
  exists core components,
    core_sample_indices_ r = Some core /\
    components_ r = Some components /\
    StronglySorted Z.lt core /\
    NoDup core /\
    Forall (fun i => 0 <= i < len data) core /\
    len components = len core /\
    components = map (row data) core /\
    np.take data core = Ok components.
Proof.
  intros H. apply fit_inv in H as [_ ->]. cbn [core_sample_indices_ components_].
  set (core := filter _ _).
  assert (Hs : StronglySorted Z.lt core) by apply filter_sorted, range_sorted.
  assert (Hb : Forall (fun i => 0 <= i < len data) core).
  { apply Forall_forall. intros i Hi. apply filter_In in Hi as [Hi _].
    now apply In_range in Hi. }
  exists core, (map (row data) core). repeat split; try assumption.
  - now apply sorted_NoDup.
  - unfold len. now rewrite length_map.
  - now apply (take_ok data core []).
Qed.

Lemma fit_core_samples_ascending_two_clusters :
  exists core components,
    core_sample_indices_ (mkDBSCAN 1.5%float 3 (Some [1; 4]) (Some [[2; 2]; [7; 7]]%float) None)
      = Some core /\
    components_ (mkDBSCAN 1.5%float 3 (Some [1; 4]) (Some [[2; 2]; [7; 7]]%float) None)
      = Some components /\
    StronglySorted Z.lt core /\
    NoDup core /\
    Forall (fun i => 0 <= i < len get_two_clusters) core /\
    len components = len core /\
    components = map (row get_two_clusters) core /\
    np.take get_two_clusters core = Ok components.
Proof.
  apply (fit_core_samples_ascending (mkDBSCAN 1.5%float 3 None None None) get_two_clusters).
  vm_compute. reflexivity.
Defined.

Lemma SFcompare_refl (s : spec_float) :
  s <> S754_nan -> SFcompare s s = Some Eq.
Proof.
  destruct s as [b | b | | b m e]; cbn; try congruence.
  - now destruct b.
  - intros _. rewrite Z.compare_refl.
    change (Pos.compare_cont Eq m m) with (Pos.compare m m).
    rewrite Pos.compare_refl. now destruct b.
Qed.

(** No float is below a NaN. *)
Lemma ltb_nan_false (d eps : float) :
  PrimFloat.is_nan eps = true -> PrimFloat.ltb d eps = false.
Proof.
  unfold PrimFloat.is_nan. rewrite eqb_spec, ltb_spec. unfold SFeqb, SFltb.
  destruct (Prim2SF eps) as [b | b | | b m e] eqn:E.
  - rewrite SFcompare_refl by discriminate. discriminate.
  - rewrite SFcompare_refl by discriminate. discriminate.
  - intros _. now destruct (Prim2SF d).
  - rewrite SFcompare_refl by discriminate. discriminate.
Qed.

(** X13: when [eps] is NaN no distance is below it: every point counts only
    itself, so [_get_core_sample_indices] returns all indices when
    [min_samples <= 1] and none otherwise. *)
Theorem eps_nan_counts_nobody (self : DBSCAN) (data : list (list float)) :
  PrimFloat.is_nan (_eps self) = true ->
  (forall i, 0 <= i < len data ->
     num_less_than_eps self i (len data) (scipy.pdist data) = Ok 1) /\
  _get_core_sample_indices self (len data) (scipy.pdist data)
  = Ok (if _min_samples self <=? 1 then range 0 (len data) else []).
Proof.
  intros Hnan.
  assert (Hcount : forall i,
    len (filter (fun j => PrimFloat.ltb (cell (scipy.pdist data) (len data) i j) (_eps self))
                (others i (len data))) = 0).
  { intros i. rewrite filter_none; [reflexivity|].
    intros j _. now apply ltb_nan_false. }
  split.
  - intros i Hi. rewrite num_less_than_eps_ok by (assumption || apply length_pdist).
    now rewrite Hcount.
  - rewrite get_core_sample_indices_ok by apply length_pdist. f_equal.
    destruct (Z.leb_spec (_min_samples self) 1).
    + apply filter_all. intros i _. unfold is_core. rewrite Hcount. apply Z.geb_le. lia.
    + apply filter_none. intros i _. unfold is_core. rewrite Hcount.
      destruct (Z.geb_spec (0 + 1) (_min_samples self)); [lia|reflexivity].
Qed.

Lemma eps_nan_counts_nobody_two_clusters :
  (forall i, 0 <= i < len get_two_clusters ->
     num_less_than_eps (mkDBSCAN nan 2 None None None) i (len get_two_clusters)
       (scipy.pdist get_two_clusters) = Ok 1) /\
  _get_core_sample_indices (mkDBSCAN nan 2 None None None) (len get_two_clusters)
    (scipy.pdist get_two_clusters)
  = Ok (if _min_samples (mkDBSCAN nan 2 None None None) <=? 1
        then range 0 (len get_two_clusters) else []).
Proof.
  apply (eps_nan_counts_nobody (mkDBSCAN nan 2 None None None) get_two_clusters).
  vm_compute. reflexivity.
Defined.

(** ** Reading the table of [pdist], and uniformly dense or sparse data *)

(** X14: looking up the pair of two distinct points of the data in the table
    of [pdist], at the index [square_to_condensed] gives, succeeds and reads
    the Euclidean distance of the two rows. *)
Theorem lookup_in_pdist (data : list (list float)) (i j : Z) :
  0 <= i < len data -> 0 <= j < len data -> i <> j ->
  (k <- square_to_condensed i j (len data) ;; np.take1 (scipy.pdist data) k)
  = Ok (scipy.euclidean (row data (Z.min i j)) (row data (Z.max i j))).
Proof.
  intros Hi Hj Hij. fold (distance data i j).
  rewrite <- cell_pdist by assumption. unfold cell.
  pose proof (offset_bounds (len data) (Z.max i j) (Z.min i j)) as Hb.
  pose proof (length_pdist data) as Hlen.
  destruct (Z.lt_trichotomy i j) as [L | [E | L]]; [|lia|].
  - rewrite square_to_condensed_lt by exact L. cbn [bind].
    rewrite Z.max_r, Z.min_l in * by lia. apply take1_ok. lia.
  - rewrite square_to_condensed_gt by exact L. cbn [bind].
    rewrite Z.max_l, Z.min_r in * by lia. apply take1_ok. lia.
Qed.

Lemma lookup_in_pdist_two_clusters :
  (k <- square_to_condensed 4 1 (len get_two_clusters) ;;
   np.take1 (scipy.pdist get_two_clusters) k)
  = Ok (scipy.euclidean (row get_two_clusters (Z.min 4 1)) (row get_two_clusters (Z.max 4 1))).
Proof.
  apply (lookup_in_pdist get_two_clusters 4 1); vm_compute; intuition discriminate.
Defined.

Lemma cell_In (distance_matrix : list float) (n i j : Z) :
  0 <= i < n -> 0 <= j < n -> i <> j -> len distance_matrix = condensed_size n ->
  In (cell distance_matrix n i j) distance_matrix.
Proof.
  intros Hi Hj Hij Hlen. unfold cell. apply nth_In.
  pose proof (offset_bounds n (Z.max i j) (Z.min i j)). unfold len in *. lia.
Qed.

(** X15: when every distance of the table is below [eps], each of the [n]
    points counts all the others: all indices are core samples if
    [min_samples <= n], and none otherwise. *)
Theorem all_within_eps (self : DBSCAN) (n : Z) (distance_matrix : list float) :
  len distance_matrix = condensed_size n ->
  forallb (fun d => PrimFloat.ltb d (_eps self)) distance_matrix = true ->
  _get_core_sample_indices self n distance_matrix
  = Ok (if _min_samples self <=? n then range 0 n else []).
Proof.
  intros Hlen Hall. rewrite forallb_forall in Hall.
  rewrite get_core_sample_indices_ok by exact Hlen. f_equal.
  assert (Hcount : forall i, 0 <= i < n ->
    len (filter (fun j => PrimFloat.ltb (cell distance_matrix n i j) (_eps self))
                (others i n)) = n - 1).
  { intros i Hi. rewrite filter_all; [now apply length_others|].
    intros j Hj. apply In_others in Hj; [|exact Hi].
    apply Hall, cell_In; (assumption || lia). }
  destruct (Z.leb_spec (_min_samples self) n).
  - apply filter_all. intros i Hi. apply In_range in Hi.
    unfold is_core. rewrite Hcount by exact Hi. apply Z.geb_le. lia.
  - apply filter_none. intros i Hi. apply In_range in Hi.
    unfold is_core. rewrite Hcount by exact Hi.
    destruct (Z.geb_spec (n - 1 + 1) (_min_samples self)); [lia|reflexivity].
Qed.

Lemma all_within_eps_three_points :
  _get_core_sample_indices (mkDBSCAN 6%float 3 None None None) 3 (scipy.pdist three_points)
  = Ok (if _min_samples (mkDBSCAN 6%float 3 None None None) <=? 3 then range 0 3 else []).
Proof.
  apply (all_within_eps (mkDBSCAN 6%float 3 None None None) 3 (scipy.pdist three_points));
    vm_compute; reflexivity.
Defined.

(** X16: when no distance of the table is below [eps], each point counts only
    itself: there is no core sample as soon as [min_samples >= 2] (and all
    indices are core samples if [min_samples <= 1]). *)
Theorem none_within_eps (self : DBSCAN) (n : Z) (distance_matrix : list float) :
  len distance_matrix = condensed_size n ->
  forallb (fun d => negb (PrimFloat.ltb d (_eps self))) distance_matrix = true ->
  _get_core_sample_indices self n distance_matrix
  = Ok (if _min_samples self <=? 1 then range 0 n else []).
Proof.
  intros Hlen Hall. rewrite forallb_forall in Hall.
  rewrite get_core_sample_indices_ok by exact Hlen. f_equal.
  assert (Hcount : forall i, 0 <= i < n ->
    len (filter (fun j => PrimFloat.ltb (cell distance_matrix n i j) (_eps self))
                (others i n)) = 0).
  { intros i Hi. rewrite filter_none; [reflexivity|].
    intros j Hj. apply In_others in Hj; [|exact Hi].
    apply negb_true_iff, Hall, cell_In; (assumption || lia). }
  destruct (Z.leb_spec (_min_samples self) 1).
  - apply filter_all. intros i Hi. apply In_range in Hi.
    unfold is_core. rewrite Hcount by exact Hi. apply Z.geb_le. lia.
  - apply filter_none. intros i Hi. apply In_range in Hi.
    unfold is_core. rewrite Hcount by exact Hi.
    destruct (Z.geb_spec (0 + 1) (_min_samples self)); [lia|reflexivity].
Qed.

Lemma none_within_eps_three_points :
  _get_core_sample_indices (mkDBSCAN 0.5%float 2 None None None) 3 (scipy.pdist three_points)
  = Ok (if _min_samples (mkDBSCAN 0.5%float 2 None None None) <=? 1 then range 0 3 else []).
Proof.
  apply (none_within_eps (mkDBSCAN 0.5%float 2 None None None) 3 (scipy.pdist three_points));
    vm_compute; reflexivity.
Defined.
